(** * TradeBot: the streaming tool-call loop of [src/services/gemini.ts]

    A shallow embedding of [generateMockChartData] and of the class
    [GeminiService] (constructor, [initializeChat], [sendMessage]).

    - JavaScript numbers are IEEE 754 binary64 values, modelled by the
      Standard Library's [spec_float] at precision 53; the operators
      [*], [+], [-], [<], [>] are the binary64 operations.
    - Functions of the JavaScript host library ([Date], [toFixed],
      [parseFloat], [Math.floor], number-to-string conversion) are the fields
      of the interface [JsHost].
    - [Math.random()], [new Date()] and the answers of the remote model are
      inputs: tapes read in order, gathered in [Inputs].
    - Side effects (callbacks, console, requests to the model, the position
      on each tape, the fields of [this]) are threaded through a state and
      exception monad [M] over [World].
    - Strings are sequences of ASCII characters; [toUpperCase] and [trim] are
      modelled on these.
    - What the code reads through [any] (the arguments of a request of the
      model) is a [Js.value]; an optional property is an [option].

    The second part embeds the callers and the consumers of the service:
    [handleSend] of the application component, and the components
    [StockChart] and [ChatMessage] that render its messages. *)

From Stdlib Require Import ZArith List String Ascii Bool Lia.
From Stdlib Require Import SpecFloat DecimalString.
Import ListNotations.

Set Implicit Arguments.

(** ** JavaScript values *)

Module Js.

Definition number := spec_float.

Definition prec : Z := 53.
Definition emax : Z := 1024.

Definition add : number -> number -> number := SFadd prec emax.
Definition sub : number -> number -> number := SFsub prec emax.
Definition mul : number -> number -> number := SFmul prec emax.
Definition div : number -> number -> number := SFdiv prec emax.

(** [x < y] and [x > y]; both are false as soon as one side is NaN. *)
Definition lt (x y : number) : bool := SFltb x y.
Definition gt (x y : number) : bool := SFltb y x.

(** Integer literals, and decimal literals [n / 10^k] (correctly rounded). *)
Definition ofZ (z : Z) : number := binary_normalize prec emax z 0 false.
Definition decimal (n : Z) (k : Z) : number := div (ofZ n) (ofZ (10 ^ k)).

(** Truthiness of a possibly absent string: [undefined] and [""] are falsy. *)
Definition truthy (v : option string) : bool :=
  match v with
  | Some s => negb (s =? "")%string
  | None => false
  end.

(** [v || d] for a possibly absent string [v]. *)
Definition or_else (v : option string) (d : string) : string :=
  match v with
  | Some s => if (s =? "")%string then d else s
  | None => d
  end.

(** [String.prototype.toUpperCase], on the ASCII letters. *)
Definition upper_ascii (c : ascii) : ascii :=
  let n := nat_of_ascii c in
  if (97 <=? n)%nat && (n <=? 122)%nat then ascii_of_nat (n - 32) else c.

Fixpoint toUpperCase (s : string) : string :=
  match s with
  | EmptyString => EmptyString
  | String c r => String (upper_ascii c) (toUpperCase r)
  end.

(** A value read through [any]: what JSON carries.  [Obj] stands for an
    object or an array and holds what its conversion to a string gives. *)
Inductive value :=
| Str (s : string)
| Num (n : number)
| Bool (b : bool)
| Null
| Obj (shown : string).

(** Truthiness of a possibly [undefined] value: [undefined], [null],
    [false], [0], [-0], [NaN] and [""] are falsy. *)
Definition truthy_value (v : option value) : bool :=
  match v with
  | Some (Str s) => negb (s =? "")%string
  | Some (Num (S754_zero _)) => false
  | Some (Num S754_nan) => false
  | Some (Num _) => true
  | Some (Bool b) => b
  | Some Null => false
  | Some (Obj _) => true
  | None => false
  end.

(** [v || d] for a possibly [undefined] value [v]. *)
Definition or_value (v : option value) (d : value) : value :=
  match v with
  | Some x => if truthy_value v then x else d
  | None => d
  end.

(** [v === s] for a string literal [s]. *)
Definition strict_eq (v : value) (s : string) : bool :=
  match v with
  | Str t => (t =? s)%string
  | _ => false
  end.

(** Objects used as property bags: [args.symbol] is [get "symbol" args],
    [None] standing for [undefined]. *)
Definition object := list (string * value).

Fixpoint get (k : string) (o : object) : option value :=
  match o with
  | [] => None
  | (k', v) :: r => if (k =? k')%string then Some v else get k r
  end.

Inductive error :=
| TypeError (msg : string)
| ModelError (msg : string).

(** What [console.error] shows of an error: its message. *)
Definition message (e : error) : string :=
  match e with
  | TypeError msg => msg
  | ModelError msg => msg
  end.

(** White space, on the ASCII characters: space, tab, line feed, vertical
    tab, form feed, carriage return. *)
Definition is_space (c : ascii) : bool :=
  let n := nat_of_ascii c in
  (n =? 32)%nat || ((9 <=? n)%nat && (n <=? 13)%nat).

Fixpoint trimStart (s : string) : string :=
  match s with
  | EmptyString => EmptyString
  | String c r => if is_space c then trimStart r else s
  end.

Fixpoint trimEnd (s : string) : string :=
  match s with
  | EmptyString => EmptyString
  | String c r =>
      let r' := trimEnd r in
      if is_space c && (r' =? "")%string then EmptyString else String c r'
  end.

(** [String.prototype.trim] *)
Definition trim (s : string) : string := trimEnd (trimStart s).

End Js.

Declare Scope js_scope.
Delimit Scope js_scope with js.
Infix "*" := Js.mul : js_scope.
Infix "+" := Js.add : js_scope.
Infix "-" := Js.sub : js_scope.

(** The host library.  A [Date] is its time value. *)
Class JsHost := {
  getHours : Z -> Z;
  setHours : Z -> Z -> Z;
  getMonth : Z -> Z;
  setMonth : Z -> Z -> Z;
  getDate : Z -> Z;
  setDate : Z -> Z -> Z;
  (** [toLocaleTimeString([], {hour: '2-digit', minute: '2-digit'})] *)
  toLocaleTimeString : Z -> string;
  toLocaleDateString : Z -> string;
  (** [Number.prototype.toFixed(2)] *)
  toFixed2 : Js.number -> string;
  parseFloat : string -> Js.number;
  Math_floor : Js.number -> Js.number;
  (** conversion of a number inside a template literal *)
  Number_toString : Js.number -> string
}.

(** [`${v}`]: the conversion of a value inside a template literal. *)
Definition template {host : JsHost} (v : Js.value) : string :=
  match v with
  | Js.Str s => s
  | Js.Num n => Number_toString n
  | Js.Bool true => "true"
  | Js.Bool false => "false"
  | Js.Null => "null"
  | Js.Obj shown => shown
  end.

(** ** [src/types.ts] *)

Record ChartDataPoint := {
  date : string;
  price : Js.number;
  volume : Js.number
}.

Inductive Trend := up | down | neutral.

(** [period] is declared a string; at run time the field holds whatever
    [generateMockChartData] was handed, which [sendMessage] reads through
    [any]. *)
Record StockChartData := {
  symbol : string;
  data : list ChartDataPoint;
  period : Js.value;
  trend : Trend
}.

Record GroundingSource := {
  title : string;
  uri : string
}.

(** ** The model boundary ([@google/genai]) *)

(** A request of the model.  [call.args] is optional ([None] is
    [undefined]); when present it is an object whose properties hold any
    value: the declared schemas are not enforced on what the model sends.
    The code copies [call.id] and compares [call.name] with two literals;
    both are kept as strings here (an absent name behaves as any name that
    is neither literal). *)
Record FunctionCall := {
  call_id : string;
  call_name : string;
  call_args : option Js.object
}.

Record FunctionResponse := {
  id : string;
  name : string;
  response_result : string
}.

(** [c.web?.uri], [c.web?.title] *)
Record GroundingChunk := {
  web_uri : option string;
  web_title : option string
}.

(** One element of a stream: [chunk.text], the grounding chunks of the first
    candidate, [chunk.functionCalls]. *)
Record Chunk := {
  text : option string;
  groundingChunks : option (list GroundingChunk);
  functionCalls : option (list FunctionCall)
}.

(** What [sendMessageStream] is given: the user's text, or the parts that
    wrap the function responses. *)
Inductive Message :=
| UserMessage (message : string)
| ToolResponses (parts : list FunctionResponse).

(** The answer to one [sendMessageStream]: the promise rejects, or it yields
    a finite stream whose iteration may end with an exception. *)
Inductive Exchange :=
| Rejected (e : string)
| Stream (chunks : list Chunk) (failure : option string).

Record Inputs := {
  (** successive results of [Math.random()] *)
  random : nat -> Js.number;
  (** successive results of [new Date()] *)
  clock : nat -> Z;
  (** the answer to one [sendMessageStream], given every request made on the
      session so far, the last one being the request answered: the most an
      answer of the library and of the remote model can depend on *)
  model : list Message -> Exchange
}.

(** ** The tool declarations *)

Record FunctionDeclaration := {
  decl_name : string;
  decl_properties : list (string * list string);
  decl_required : list string
}.

Definition getStockChartFunction : FunctionDeclaration := {|
  decl_name := "getStockChart";
  decl_properties := [("symbol", []); ("period", ["1D"; "1W"; "1M"; "1Y"])]%string;
  decl_required := ["symbol"%string]
|}.

Definition getStockPriceFunction : FunctionDeclaration := {|
  decl_name := "getStockPrice";
  decl_properties := [("symbol"%string, [])];
  decl_required := ["symbol"%string]
|}.

(** ** The state *)

Record Chat := {
  chat_model : string;
  chat_instruction : string;
  chat_tools : list FunctionDeclaration;
  (** the requests made on this session object so far, oldest first: the
      index into the tape [model].  This is a log of the calls of
      [sendMessageStream], not the history the library curates. *)
  chat_sent : list Message
}.

(** The fields of [GeminiService]; [ai] is the client built from the key. *)
Record GeminiService := {
  ai : string;
  chatSession : option Chat;
  apiKey : string
}.

Inductive Event :=
| OnChunk (text : string)          (* onChunk(text), from the first stream *)
| OnToolChunk (text : string)      (* onChunk(toolText), from a resumed stream *)
| OnChart (chart : StockChartData) (* onChart(chartData) *)
| Send (message : Message).        (* chatSession.sendMessageStream(...) *)

(** [console] has one entry per call of [console.error]: its arguments,
    separated by a space, an error being shown by its message. *)
Record World := {
  this : GeminiService;
  events : list Event;
  console : list string;
  randomPos : nat;
  clockPos : nat
}.

Definition set_this (f : GeminiService -> GeminiService) (w : World) : World :=
  {| this := f (this w); events := events w; console := console w;
     randomPos := randomPos w; clockPos := clockPos w |}.

Definition emit (e : Event) (w : World) : World :=
  {| this := this w; events := events w ++ [e]; console := console w;
     randomPos := randomPos w; clockPos := clockPos w |}.

Definition log (s : string) (w : World) : World :=
  {| this := this w; events := events w; console := console w ++ [s];
     randomPos := randomPos w; clockPos := clockPos w |}.

(** ** The monad *)

Inductive Outcome (A : Type) :=
| Returned (a : A)
| Thrown (e : Js.error).

Arguments Thrown {A} e.

Definition M (A : Type) : Type := World -> Outcome A * World.

Definition ret {A} (a : A) : M A := fun w => (Returned a, w).

Definition throw {A} (e : Js.error) : M A := fun w => (Thrown e, w).

Definition bind {A B} (c : M A) (k : A -> M B) : M B :=
  fun w =>
    match c w with
    | (Returned a, w') => k a w'
    | (Thrown e, w') => (Thrown e, w')
    end.

Definition modify (f : World -> World) : M unit := fun w => (Returned tt, f w).

(** [try { c } catch (error) { h error }] *)
Definition try_catch {A} (c : M A) (h : Js.error -> M A) : M A :=
  fun w =>
    match c w with
    | (Returned a, w') => (Returned a, w')
    | (Thrown e, w') => h e w'
    end.

Notation "x <- c ;; k" := (bind c (fun x => k))
  (at level 61, c at next level, right associativity).
Notation "c ;;; k" := (bind c (fun _ => k))
  (at level 61, right associativity).

(** ** [generateMockChartData] *)

Section Generator.

Context {host : JsHost}.
Variable inp : Inputs.

Definition Math_random : M Js.number :=
  fun w =>
    (Returned (random inp (randomPos w)),
     {| this := this w; events := events w; console := console w;
        randomPos := S (randomPos w); clockPos := clockPos w |}).

Definition Date_new : M Z :=
  fun w =>
    (Returned (clock inp (clockPos w)),
     {| this := this w; events := events w; console := console w;
        randomPos := randomPos w; clockPos := S (clockPos w) |}).

(** [o.price] where [o] is an array element that may be [undefined]. *)
Definition price_of (o : option ChartDataPoint) : M Js.number :=
  match o with
  | Some p => ret (price p)
  | None => throw (Js.TypeError "Cannot read properties of undefined (reading 'price')")
  end.

Definition volatility : Js.number := Js.decimal 2 2.

(** One iteration of the loop, for the counter [i]. *)
Definition chart_step (period : Js.value) (now : Z) (i : nat)
    (currentPrice : Js.number) (data : list ChartDataPoint)
    : M (Js.number * list ChartDataPoint) :=
  let date := now in
  let date :=
    if Js.strict_eq period "1D" then setHours date (getHours date - Z.of_nat i)
    else if Js.strict_eq period "1Y" then setMonth date (getMonth date - Z.of_nat i)
    else setDate date (getDate date - Z.of_nat i) in
  r <- Math_random ;;
  let change := (currentPrice * (r - Js.decimal 5 1) * volatility)%js in
  let currentPrice := (currentPrice + change)%js in
  v <- Math_random ;;
  ret (currentPrice,
       data ++ [ {| date := if Js.strict_eq period "1D"
                            then toLocaleTimeString date
                            else toLocaleDateString date;
                    price := parseFloat (toFixed2 currentPrice);
                    volume := (Math_floor (v * Js.ofZ 10000) + Js.ofZ 1000)%js |} ]).

(** [for (let i = points; i >= 0; i--) { ... }], entered with [i]. *)
Fixpoint chart_loop (period : Js.value) (now : Z) (i : nat)
    (currentPrice : Js.number) (data : list ChartDataPoint)
    : M (Js.number * list ChartDataPoint) :=
  st <- chart_step period now i currentPrice data ;;
  match i with
  | O => ret st
  | S j => chart_loop period now j (fst st) (snd st)
  end.

(** [symbol.toUpperCase()], whatever [symbol] holds. *)
Definition toUpperCase_of (symbol : Js.value) : M string :=
  match symbol with
  | Js.Str s => ret (Js.toUpperCase s)
  | Js.Null =>
      throw (Js.TypeError "Cannot read properties of null (reading 'toUpperCase')")
  | _ => throw (Js.TypeError "symbol.toUpperCase is not a function")
  end.

(** The parameters are declared strings; the one call of the function hands
    it values read through [any], so they are taken as values here. *)
Definition generateMockChartData (symbol period : Js.value) : M StockChartData :=
  let data : list ChartDataPoint := [] in
  now <- Date_new ;;
  let points := 30%nat in
  r <- Math_random ;;
  let startPrice := (r * Js.ofZ 100 + Js.ofZ 50)%js in
  let points := if Js.strict_eq period "1D" then 24%nat else points in
  let points := if Js.strict_eq period "1W" then 7%nat else points in
  let points := if Js.strict_eq period "1M" then 30%nat else points in
  let points := if Js.strict_eq period "1Y" then 12%nat else points in
  let currentPrice := startPrice in
  st <- chart_loop period now points currentPrice data ;;
  let data := snd st in
  start <- price_of (nth_error data 0) ;;
  end_ <- price_of (nth_error data (List.length data - 1)) ;;
  upper <- toUpperCase_of symbol ;;
  ret {| symbol := upper;
         data := data;
         period := period;
         trend := if Js.gt end_ start then up
                  else if Js.lt end_ start then down
                  else neutral |}.

End Generator.

(** ** The service *)

(** What [sendMessage] resolves to: [{ text, sources }]. *)
Record TurnResult := {
  result_text : string;
  result_sources : list GroundingSource
}.

Definition systemInstruction : string :=
"You are TradeBot, an advanced financial assistant. 
        Your goal is to help users understand the markets with data-driven insights.
        
        Capabilities:
        1. Use 'getStockPrice' to fetch current stock prices when asked.
        2. Use 'getStockChart' tool ONLY when the user explicitly asks for a chart, visualization, or performance graph.
        
        Style:
        - Be professional, concise, and helpful.
        - Use markdown for formatting (tables for data, bold for emphasis).
        ".

Section Service.

Context {host : JsHost}.
Variable inp : Inputs.

(** [constructor()], given the value of [process.env.API_KEY].  The client
    [new GoogleGenAI({ apiKey })] records the key it is handed. *)
Definition constructor (API_KEY : option string) : M unit :=
  let apiKey := API_KEY in
  (if negb (Js.truthy apiKey)
   then modify (log "API_KEY is missing from environment variables")
   else ret tt) ;;;
  modify (set_this (fun _ =>
    {| ai := Js.or_else apiKey ""; chatSession := None; apiKey := Js.or_else apiKey "" |})).

Definition initializeChat : M unit :=
  modify (set_this (fun s =>
    {| ai := ai s;
       chatSession := Some {| chat_model := "gemini-2.5-flash";
                              chat_instruction := systemInstruction;
                              chat_tools := [getStockChartFunction; getStockPriceFunction];
                              chat_sent := [] |};
       apiKey := apiKey s |})).

(** [this.chatSession!.sendMessageStream({ message })]: the request is
    logged on the session and the tape [model] gives its answer. *)
Definition sendMessageStream (message : Message) : M (list Chunk * option string) :=
  fun w =>
    match chatSession (this w) with
    | None =>
        (Thrown (Js.TypeError "Cannot read properties of null (reading 'sendMessageStream')"), w)
    | Some chat =>
        let sent := chat_sent chat ++ [message] in
        let w' :=
          emit (Send message)
            (set_this (fun s =>
               {| ai := ai s;
                  chatSession := Some {| chat_model := chat_model chat;
                                         chat_instruction := chat_instruction chat;
                                         chat_tools := chat_tools chat;
                                         chat_sent := sent |};
                  apiKey := apiKey s |}) w) in
        match model inp sent with
        | Rejected e => (Thrown (Js.ModelError e), w')
        | Stream chunks failure => (Returned (chunks, failure), w')
        end
    end.

(** [for await (const chunk of stream) { body }], the loop's variables
    being threaded as [s]. *)
Fixpoint for_await {S : Type} (body : Chunk -> S -> M S)
    (chunks : list Chunk) (failure : option string) (s : S) : M S :=
  match chunks with
  | [] =>
      match failure with
      | None => ret s
      | Some e => throw (Js.ModelError e)
      end
  | chunk :: rest => s' <- body chunk s ;; for_await body rest failure s'
  end.

(** [for (const x of xs) { body }] *)
Fixpoint for_of {A S : Type} (body : A -> S -> M S) (xs : list A) (s : S) : M S :=
  match xs with
  | [] => ret s
  | x :: rest => s' <- body x s ;; for_of body rest s'
  end.

(** The body of [for (const call of functionCalls)]; the state is
    [functionResponses]. *)
Definition handle_call (call : FunctionCall) (functionResponses : list FunctionResponse)
    : M (list FunctionResponse) :=
  match call_args call with
  | None => throw (Js.TypeError "Cannot read properties of undefined (reading 'symbol')")
  | Some args =>
      let symbol := Js.or_value (Js.get "symbol" args) (Js.Str "UNKNOWN") in
      if (call_name call =? "getStockChart")%string then
        let period := Js.or_value (Js.get "period" args) (Js.Str "1M") in
        chartData <- generateMockChartData inp symbol period ;;
        modify (emit (OnChart chartData)) ;;;
        last <- price_of (nth_error (data chartData) (List.length (data chartData) - 1)) ;;
        ret (functionResponses ++
             [ {| id := call_id call;
                  name := call_name call;
                  response_result :=
                    ("Chart generated for " ++ template symbol ++ ". Current price is "
                     ++ Number_toString last ++ ".")%string |} ])
      else if (call_name call =? "getStockPrice")%string then
        r <- Math_random inp ;;
        let price := toFixed2 (r * Js.ofZ 1000 + Js.ofZ 10)%js in
        ret (functionResponses ++
             [ {| id := call_id call;
                  name := call_name call;
                  response_result :=
                    ("The current price of " ++ template symbol ++ " is $" ++ price
                     ++ ".")%string |} ])
      else ret functionResponses
  end.

(** The body of [for await (const toolChunk of toolStream)]; the state is
    [fullTextResponse]. *)
Definition on_tool_chunk (toolChunk : Chunk) (fullTextResponse : string) : M string :=
  match text toolChunk with
  | Some toolText =>
      if Js.truthy (Some toolText) then
        modify (emit (OnToolChunk toolText)) ;;;
        ret (fullTextResponse ++ toolText)%string
      else ret fullTextResponse
  | None => ret fullTextResponse
  end.

(** [groundingChunks.forEach(...)], the state being [sources]. *)
Definition push_source (c : GroundingChunk) (sources : list GroundingSource)
    : list GroundingSource :=
  match web_uri c, web_title c with
  | Some u, Some t =>
      if Js.truthy (Some u) && Js.truthy (Some t)
      then sources ++ [ {| title := t; uri := u |} ]
      else sources
  | _, _ => sources
  end.

(** The body of [for await (const chunk of streamResult)]; the state is
    [(fullTextResponse, sources)]. *)
Definition on_chunk (chunk : Chunk) (st : string * list GroundingSource)
    : M (string * list GroundingSource) :=
  let '(fullTextResponse, sources) := st in
  (* 1. Handle Text *)
  fullTextResponse <-
    match text chunk with
    | Some text =>
        if Js.truthy (Some text) then
          modify (emit (OnChunk text)) ;;;
          ret (fullTextResponse ++ text)%string
        else ret fullTextResponse
    | None => ret fullTextResponse
    end ;;
  (* 2. Handle Grounding *)
  let sources :=
    match groundingChunks chunk with
    | Some gcs => fold_left (fun acc c => push_source c acc) gcs sources
    | None => sources
    end in
  (* 3. Handle Function Calls *)
  match functionCalls chunk with
  | Some ((_ :: _) as calls) =>
      functionResponses <- for_of handle_call calls [] ;;
      if (0 <? List.length functionResponses)%nat then
        toolStream <- sendMessageStream (ToolResponses functionResponses) ;;
        fullTextResponse <-
          for_await on_tool_chunk (fst toolStream) (snd toolStream) fullTextResponse ;;
        ret (fullTextResponse, sources)
      else ret (fullTextResponse, sources)
  | _ => ret (fullTextResponse, sources)
  end.

Definition sendMessage (message : string) : M TurnResult :=
  (fun w =>
     match chatSession (this w) with
     | None => initializeChat w
     | Some _ => (Returned tt, w)
     end) ;;;
  try_catch
    (let fullTextResponse := ""%string in
     let sources : list GroundingSource := [] in
     streamResult <- sendMessageStream (UserMessage message) ;;
     st <- for_await on_chunk (fst streamResult) (snd streamResult)
             (fullTextResponse, sources) ;;
     ret {| result_text := fst st; result_sources := snd st |})
    (fun error =>
       modify (log ("Gemini interaction error: " ++ Js.message error)) ;;;
       throw error).

End Service.

(** ** Vocabulary of the statements *)

Definition toolNames : list string :=
  map decl_name [getStockChartFunction; getStockPriceFunction].

(** The names [handle_call] dispatches on. *)
Definition known (call : FunctionCall) : bool :=
  (call_name call =? "getStockChart")%string || (call_name call =? "getStockPrice")%string.

Definition is_chart_call (call : FunctionCall) : bool :=
  (call_name call =? "getStockChart")%string.

(** The properties of [call.args]; none when there is no such object. *)
Definition args_of (call : FunctionCall) : Js.object :=
  match call_args call with
  | Some args => args
  | None => []
  end.

(** The values of [symbol] and [period] in [sendMessage], for a request
    that has an [args] object. *)
Definition symbol_arg (call : FunctionCall) : Js.value :=
  Js.or_value (Js.get "symbol" (args_of call)) (Js.Str "UNKNOWN").

Definition period_arg (call : FunctionCall) : Js.value :=
  Js.or_value (Js.get "period" (args_of call)) (Js.Str "1M").

Definition has_args (call : FunctionCall) : bool :=
  match call_args call with
  | Some _ => true
  | None => false
  end.

(** A request the executor passes over: it has an [args] object and its
    name is not one the executor dispatches on. *)
Definition skipped (call : FunctionCall) : bool := negb (known call) && has_args call.

(** The error of [symbol.toUpperCase()], if any. *)
Definition upper_failure (symbol : Js.value) : option Js.error :=
  match symbol with
  | Js.Str _ => None
  | Js.Null =>
      Some (Js.TypeError "Cannot read properties of null (reading 'toUpperCase')")
  | _ => Some (Js.TypeError "symbol.toUpperCase is not a function")
  end.

(** The error a request makes the executor throw, if any: every request is
    read for [args.symbol], and the symbol of a chart request is
    upper-cased. *)
Definition failure_of (call : FunctionCall) : option Js.error :=
  match call_args call with
  | None => Some (Js.TypeError "Cannot read properties of undefined (reading 'symbol')")
  | Some _ => if is_chart_call call then upper_failure (symbol_arg call) else None
  end.

(** The error of the first request of a batch that has one. *)
Fixpoint first_failure (calls : list FunctionCall) : option Js.error :=
  match calls with
  | [] => None
  | call :: rest =>
      match failure_of call with
      | Some e => Some e
      | None => first_failure rest
      end
  end.

(** The requests of a batch that come before the first one with an error. *)
Fixpoint executed (calls : list FunctionCall) : list FunctionCall :=
  match calls with
  | [] => []
  | call :: rest =>
      match failure_of call with
      | Some _ => []
      | None => call :: executed rest
      end
  end.

(** The value of [points] when the loop of [generateMockChartData] starts:
    the last assignment that applies wins. *)
Definition points_of (period : Js.value) : nat :=
  if Js.strict_eq period "1Y" then 12
  else if Js.strict_eq period "1M" then 30
  else if Js.strict_eq period "1W" then 7
  else if Js.strict_eq period "1D" then 24
  else 30.

(** The values of [i] the loop goes through, entered with [i]. *)
Fixpoint countdown (i : nat) : list nat :=
  i :: match i with
       | O => []
       | S j => countdown j
       end.

(** The label of the point pushed for the counter [i]. *)
Definition point_date {host : JsHost} (period : Js.value) (now : Z) (i : nat) : string :=
  if Js.strict_eq period "1D"
  then toLocaleTimeString (setHours now (getHours now - Z.of_nat i))
  else if Js.strict_eq period "1Y"
       then toLocaleDateString (setMonth now (getMonth now - Z.of_nat i))
       else toLocaleDateString (setDate now (getDate now - Z.of_nat i)).

(** The part of the world that a computation leaves alone when it only reads
    the tapes. *)
Definition same_shell (w w' : World) : Prop :=
  this w' = this w /\ events w' = events w /\ console w' = console w.

(** The texts handed to [onChunk], in order. *)
Fixpoint delivered (evs : list Event) : list string :=
  match evs with
  | [] => []
  | OnChunk t :: r => t :: delivered r
  | OnToolChunk t :: r => t :: delivered r
  | _ :: r => delivered r
  end.

(** The messages handed to [sendMessageStream], in order. *)
Fixpoint submitted (evs : list Event) : list Message :=
  match evs with
  | [] => []
  | Send m :: r => m :: submitted r
  | _ :: r => submitted r
  end.

(** The charts handed to [onChart], in order. *)
Fixpoint charted (evs : list Event) : list StockChartData :=
  match evs with
  | [] => []
  | OnChart c :: r => c :: charted r
  | _ :: r => charted r
  end.

(** In-order concatenation of strings. *)
Definition join (l : list string) : string := fold_right String.append ""%string l.

(** The text a fragment contributes: its [text] when truthy. *)
Definition chunk_text (chunk : Chunk) : list string :=
  match text chunk with
  | Some t => if (t =? "")%string then [] else [t]
  | None => []
  end.

Definition calls_of (chunk : Chunk) : list FunctionCall :=
  match functionCalls chunk with
  | Some calls => calls
  | None => []
  end.


(** The messages submitted on the session before the turn. *)
Definition history (w : World) : list Message :=
  match chatSession (this w) with
  | Some chat => chat_sent chat
  | None => []
  end.

(** What the model answers once [sent] has been submitted. *)
Definition answer (inp : Inputs) (sent : list Message) : Outcome (list Chunk * option string) :=
  match model inp sent with
  | Rejected e => Thrown (Js.ModelError e)
  | Stream chunks failure => Returned (chunks, failure)
  end.

(** ** The tool executor and the traces, as relations *)

Section Shapes.

Context {host : JsHost}.

(** The summary handed to the model for a chart whose last point is [pn]. *)
Definition chart_summary (call : FunctionCall) (pn : ChartDataPoint) : FunctionResponse :=
  {| id := call_id call;
     name := call_name call;
     response_result :=
       ("Chart generated for " ++ template (symbol_arg call) ++ ". Current price is "
        ++ Number_toString (price pn) ++ ".")%string |}.

Definition price_summary (call : FunctionCall) (p : string) : FunctionResponse :=
  {| id := call_id call;
     name := call_name call;
     response_result :=
       ("The current price of " ++ template (symbol_arg call) ++ " is $" ++ p
        ++ ".")%string |}.

(** A chart as [generateMockChartData] builds it for [call], whose symbol
    is a string. *)
Definition chart_for (call : FunctionCall) (chart : StockChartData) (pn : ChartDataPoint)
    : Prop :=
  symbol chart = Js.toUpperCase (template (symbol_arg call))
  /\ period chart = period_arg call
  /\ List.length (data chart) = S (points_of (period_arg call))
  /\ nth_error (data chart) (List.length (data chart) - 1) = Some pn.

(** [handled call new evs]: executing [call], which throws nothing,
    appends the responses [new] to [functionResponses] and makes the
    callbacks [evs]. *)
Inductive handled (call : FunctionCall) : list FunctionResponse -> list Event -> Prop :=
| handled_chart chart pn :
    failure_of call = None ->
    call_name call = "getStockChart"%string ->
    chart_for call chart pn ->
    handled call [chart_summary call pn] [OnChart chart]
| handled_price p :
    failure_of call = None ->
    call_name call = "getStockPrice"%string ->
    handled call [price_summary call p] []
| handled_unknown :
    failure_of call = None ->
    known call = false ->
    handled call [] [].

Inductive batch_handled : list FunctionCall -> list FunctionResponse -> list Event -> Prop :=
| batch_nil : batch_handled [] [] []
| batch_cons call calls new evs news evss :
    handled call new evs ->
    batch_handled calls news evss ->
    batch_handled (call :: calls) (new ++ news) (evs ++ evss).

(** The events of one fragment of the first stream: its text, the chart
    callbacks of its batch and, when the batch produced responses, their
    submission followed by the texts of the resumed stream. *)
Inductive chunk_trace (chunk : Chunk) : list Event -> Prop :=
| chunk_plain :
    batch_handled (calls_of chunk) [] [] ->
    chunk_trace chunk (map OnChunk (chunk_text chunk))
| chunk_tools new cevs resumed :
    batch_handled (calls_of chunk) new cevs ->
    new <> [] ->
    chunk_trace chunk
      (map OnChunk (chunk_text chunk) ++ cevs
       ++ Send (ToolResponses new) :: map OnToolChunk (flat_map chunk_text resumed)).

(** The events of a fragment whose batch is cut short by the error [e]: its
    text and the chart callbacks of the requests before the failing one;
    nothing is submitted. *)
Definition aborted_at (chunk : Chunk) (e : Js.error) (evs : list Event) : Prop :=
  first_failure (calls_of chunk) = Some e
  /\ exists new cevs,
       batch_handled (executed (calls_of chunk)) new cevs
       /\ evs = map OnChunk (chunk_text chunk) ++ cevs.

(** The events of the fragments of the first stream that were processed. *)
Inductive stream_trace : list Chunk -> list Event -> Prop :=
| stream_nil : stream_trace [] []
| stream_cons chunk chunks evs evss :
    chunk_trace chunk evs ->
    stream_trace chunks evss ->
    stream_trace (chunk :: chunks) (evs ++ evss).



End Shapes.

(** ** A host and inputs to run the definitions on

  A UTC clock with the proleptic Gregorian calendar, en-US formats, and
  decimal conversions that are exact on the finite numbers with at most two
  decimals this program prints. *)

Module Sample.

Local Open Scope Z_scope.

Definition digits (n : Z) : string :=
  NilZero.string_of_uint (N.to_uint (Z.to_N n)).

Definition two_digits (n : Z) : string :=
  ((if (n <? 10)%Z then "0" else "") ++ digits n)%string.

(** Days since the epoch of a civil date, and back. *)
Definition days_from_civil (y m d : Z) : Z :=
  let y := if m <=? 2 then y - 1 else y in
  let era := y / 400 in
  let yoe := y - era * 400 in
  let doy := (153 * (if 2 <? m then m - 3 else m + 9) + 2) / 5 + d - 1 in
  let doe := yoe * 365 + yoe / 4 - yoe / 100 + doy in
  era * 146097 + doe - 719468.

Definition civil_from_days (z : Z) : Z * Z * Z :=
  let z := z + 719468 in
  let era := z / 146097 in
  let doe := z - era * 146097 in
  let yoe := (doe - doe / 1460 + doe / 36524 - doe / 146096) / 365 in
  let doy := doe - (365 * yoe + yoe / 4 - yoe / 100) in
  let mp := (5 * doy + 2) / 153 in
  let d := doy - (153 * mp + 2) / 5 + 1 in
  let m := if mp <? 10 then mp + 3 else mp - 9 in
  (if m <=? 2 then yoe + era * 400 + 1 else yoe + era * 400, m, d).

Definition msPerDay : Z := 86400000.
Definition msPerHour : Z := 3600000.

Definition year_of (t : Z) : Z := fst (fst (civil_from_days (t / msPerDay))).
Definition month_of (t : Z) : Z := snd (fst (civil_from_days (t / msPerDay))).
Definition day_of (t : Z) : Z := snd (civil_from_days (t / msPerDay)).

(** The time value with the same time of day on the given civil day;
    months and days out of range carry over. *)
Definition make_date (t : Z) (y month0 d : Z) : Z :=
  (days_from_civil (y + month0 / 12) (month0 mod 12 + 1) 1 + d - 1) * msPerDay
  + t mod msPerDay.

Definition hours (t : Z) : Z := (t mod msPerDay) / msPerHour.
Definition minutes (t : Z) : Z := (t mod msPerHour) / 60000.

Definition time_string (t : Z) : string :=
  let h := hours t in
  let h12 := if h mod 12 =? 0 then 12 else h mod 12 in
  (two_digits h12 ++ ":" ++ two_digits (minutes t)
   ++ (if (h <? 12)%Z then " AM" else " PM"))%string.

Definition date_string (t : Z) : string :=
  (digits (month_of t) ++ "/" ++ digits (day_of t) ++ "/" ++ digits (year_of t))%string.

(** [round (|x| * 100)], ties upwards, for a finite [x]. *)
Definition cents (x : Js.number) : option (bool * Z) :=
  match x with
  | S754_zero _ => Some (false, 0)
  | S754_finite s m e =>
      Some (s, if 0 <=? e then 100 * Zpos m * 2 ^ e
               else (200 * Zpos m + 2 ^ (- e)) / 2 ^ (1 - e))
  | _ => None
  end.

Definition fixed2 (x : Js.number) : string :=
  match cents x with
  | Some (s, n) =>
      ((if s then "-" else "") ++ digits (n / 100) ++ "." ++ two_digits (n mod 100))%string
  | None =>
      match x with
      | S754_infinity true => "-Infinity"
      | S754_infinity false => "Infinity"
      | _ => "NaN"
      end
  end.

(** The shortest decimal form of a number with at most two decimals. *)
Definition shortest2 (x : Js.number) : string :=
  match cents x with
  | Some (s, n) =>
      ((if s && (0 <? n)%Z then "-" else "") ++ digits (n / 100)
       ++ (if (n mod 100 =? 0)%Z then ""
           else if (n mod 10 =? 0)%Z then "." ++ digits (n mod 100 / 10)
           else "." ++ two_digits (n mod 100)))%string
  | None => fixed2 x
  end.

(** Reads [digits] optionally followed by [.digits]; what follows is
    ignored, as [parseFloat] does. *)
Fixpoint scan (s : string) (dot : bool) (acc scale : Z) : Z * Z :=
  match s with
  | EmptyString => (acc, scale)
  | String c r =>
      let n := Z.of_nat (nat_of_ascii c) in
      if (48 <=? n) && (n <=? 57)
      then scan r dot (10 * acc + (n - 48)) (if dot then 10 * scale else scale)
      else if (n =? 46) && negb dot then scan r true acc scale
      else (acc, scale)
  end.

Definition starts_with_digit (s : string) : bool :=
  match s with
  | String c _ => let n := nat_of_ascii c in ((48 <=? n) && (n <=? 57))%nat
  | EmptyString => false
  end.

Definition parse (s : string) : Js.number :=
  let '(neg, body) :=
    match s with
    | String "-"%char r => (true, r)
    | _ => (false, s)
    end in
  if starts_with_digit body then
    let '(acc, scale) := scan body false 0 1 in
    if acc =? 0 then S754_zero neg
    else Js.div (Js.ofZ (if neg then - acc else acc)) (Js.ofZ scale)
  else if (body =? "Infinity")%string then S754_infinity neg
  else S754_nan.

Definition floor (x : Js.number) : Js.number :=
  match x with
  | S754_finite s m e =>
      if 0 <=? e then x
      else Js.ofZ ((if s then Zneg m else Zpos m) / 2 ^ (- e))
  | _ => x
  end.

#[export] Instance host : JsHost := {|
  getHours := hours;
  setHours := fun t h => t - t mod msPerDay + h * msPerHour + t mod msPerHour;
  getMonth := fun t => month_of t - 1;
  setMonth := fun t m => make_date t (year_of t) m (day_of t);
  getDate := day_of;
  setDate := fun t d => make_date t (year_of t) (month_of t - 1) d;
  toLocaleTimeString := time_string;
  toLocaleDateString := date_string;
  toFixed2 := fixed2;
  parseFloat := parse;
  Math_floor := floor;
  Number_toString := shortest2
|}.

(** The model answers the n-th message of the session with the n-th entry
    of a script, and with an empty stream once the script is exhausted. *)
Definition inputs (script : list Exchange) : Inputs := {|
  random := fun n => Js.decimal (Z.of_nat ((n * 37 + 11) mod 100)%nat) 2;
  clock := fun n => 1700000000000 + 1000 * Z.of_nat n;
  model := fun sent => nth (List.length sent - 1)%nat script (Stream [] None)
|}.

(** The world before the service is constructed. *)
Definition boot : World := {|
  this := {| ai := ""; chatSession := None; apiKey := "" |};
  events := [];
  console := [];
  randomPos := 0%nat;
  clockPos := 0%nat
|}.

(** The world once [new GeminiService()] has run with a key in the
    environment. *)
Definition ready : World := snd (constructor (Some "key"%string) boot).

Definition say (s : string) : Chunk :=
  {| text := Some s; groundingChunks := None; functionCalls := None |}.

Definition ask (calls : list FunctionCall) : Chunk :=
  {| text := None; groundingChunks := None; functionCalls := Some calls |}.

End Sample.

(** ** Runs on the sample host *)

Module Runs.

Import Sample.

Definition weather_call : FunctionCall :=
  {| call_id := "c1"; call_name := "getWeather";
     call_args := Some [("symbol"%string, Js.Str "AAPL")] |}.

Definition price_call : FunctionCall :=
  {| call_id := "c2"; call_name := "getStockPrice";
     call_args := Some [("symbol"%string, Js.Str "ETH")] |}.

Definition chart_call : FunctionCall :=
  {| call_id := "c3"; call_name := "getStockChart";
     call_args := Some [("symbol"%string, Js.Str "btc")] |}.

(** A chart request whose [args] is the empty object. *)
Definition bare_chart_call : FunctionCall :=
  {| call_id := "c4"; call_name := "getStockChart"; call_args := Some [] |}.

(** A price request without [args]. *)
Definition no_args_call : FunctionCall :=
  {| call_id := "c6"; call_name := "getStockPrice"; call_args := None |}.

(** A chart request whose symbol is the number 5. *)
Definition numeric_chart_call : FunctionCall :=
  {| call_id := "c7"; call_name := "getStockChart";
     call_args := Some [("symbol"%string, Js.Num (Js.ofZ 5))] |}.

(** The model asks for an undeclared tool, then says nothing more. *)
Definition weather_script : list Exchange :=
  [Stream [ask [weather_call]] None].

(** The model asks for an undeclared tool and for a price in one batch. *)
Definition mixed_script : list Exchange :=
  [Stream [ask [weather_call; price_call]] None;
   Stream [say "ETH trades at $120."%string] None].


(** The model answers in two fragments around a price request. *)
Definition price_script : list Exchange :=
  [Stream [say "Let me check. "%string; ask [price_call]] None;
   Stream [say "ETH trades at "%string; say "$120."%string] None].

Definition chart_script : list Exchange :=
  [Stream [ask [chart_call]] None;
   Stream [say "Here is the chart."%string] None].

Definition rejecting_script : list Exchange :=
  [Rejected "API key not valid"].

(** The model asks for a chart and, in the same batch, for a price without
    giving arguments. *)
Definition no_args_script : list Exchange :=
  [Stream [say "Checking. "%string; ask [chart_call; no_args_call]] None;
   Stream [say "Done."%string] None].

(** The world once the session exists. *)
Definition started : World := snd (initializeChat ready).

End Runs.

(** ** [src/components/StockChart.tsx]

    The component is a function of its props; the record holds every
    expression of the markup that depends on them. *)

Inductive TrendIcon := TrendingUp | TrendingDown | Minus.

Record StockChartView := {
  heading : string;                (* {data.symbol} *)
  period_badge : Js.value;         (* {data.period} *)
  trend_class : string;            (* the colour class of the trend figure *)
  trend_icon : TrendIcon;
  last_price : string;             (* the figure next to the icon *)
  series : list ChartDataPoint;    (* <AreaChart data={data.data}> *)
  gradient_id : string;            (* <linearGradient id=...> *)
  stop_color : string;             (* stopColor of both stops *)
  stroke : string;                 (* <Area stroke=...> *)
  fill : string                    (* <Area fill=...> *)
}.

Section StockChartComponent.

Context {host : JsHost}.

(** [tickFormatter] of the Y axis. *)
Definition tickFormatter (value : Js.number) : string :=
  ("$" ++ Number_toString value)%string.

(** [StockChart({ data })]; the prop is called [chart] here. *)
Definition StockChart (chart : StockChartData) : Outcome StockChartView :=
  let isUp := match trend chart with up => true | _ => false end in
  let color :=
    if isUp then "#10b981"%string
    else match trend chart with
         | down => "#ef4444"%string
         | _ => "#64748b"%string
         end in
  match nth_error (data chart) (List.length (data chart) - 1) with
  | None => Thrown (Js.TypeError "Cannot read properties of undefined (reading 'price')")
  | Some last =>
      Returned
        {| heading := symbol chart;
           period_badge := period chart;
           trend_class := if isUp then "text-emerald-400"%string
                          else match trend chart with
                               | down => "text-red-400"%string
                               | _ => "text-slate-400"%string
                               end;
           trend_icon := if isUp then TrendingUp
                         else match trend chart with
                              | down => TrendingDown
                              | _ => Minus
                              end;
           last_price := toFixed2 (price last);
           series := data chart;
           gradient_id := ("color" ++ symbol chart)%string;
           stop_color := color;
           stroke := color;
           fill := ("url(#color" ++ symbol chart ++ ")")%string |}
  end.

End StockChartComponent.

(** ** The chat: [Message] of [src/types.ts], [src/components/ChatMessage.tsx]
    and [handleSend] of the application component *)

Module Ui.

Inductive Role := role_user | role_model.   (* 'user' | 'model' *)

Record Message := {
  id : string;
  role : Role;
  text : string;
  timestamp : Z;
  isLoading : option bool;
  chartData : option StockChartData;
  sources : option (list GroundingSource)
}.

(** The state of the application component: one field per [useState]
    ([loading] is the state variable [isLoading]). *)
Record State := {
  messages : list Message;
  inputValue : string;
  loading : bool;
  sidebarOpen : bool
}.

Definition setMessages (f : list Message -> list Message) (ui : State) : State :=
  {| messages := f (messages ui); inputValue := inputValue ui;
     loading := loading ui; sidebarOpen := sidebarOpen ui |}.

Definition setInputValue (v : string) (ui : State) : State :=
  {| messages := messages ui; inputValue := v;
     loading := loading ui; sidebarOpen := sidebarOpen ui |}.

Definition setIsLoading (b : bool) (ui : State) : State :=
  {| messages := messages ui; inputValue := inputValue ui;
     loading := b; sidebarOpen := sidebarOpen ui |}.



Definition errorText : string :=
  "I encountered an error connecting to the market servers. Please check your connection and API Key.".

Definition welcomeText : string :=
  "Hello! I'm TradeBot. I can help you analyze stock prices, visualize market trends, and find the latest financial news. Try asking 'What is the price of Apple?' or 'Show me a chart for Bitcoin'.".

(** The initial state, [now] being the clock when the component mounts. *)
Definition initialState (now : Z) : State :=
  {| messages := [ {| id := "welcome"; role := role_model; text := welcomeText;
                      timestamp := now; isLoading := None; chartData := None;
                      sources := None |} ];
     inputValue := "";
     loading := false;
     sidebarOpen := false |}.

Section Components.

Context {host : JsHost}.


Variable inp : Inputs.

(** [Date.now()] *)
Definition Date_now : M Js.number :=
  t <- Date_new inp ;; ret (Js.ofZ t).

(** The updater of the [onChunk] callback. *)
Definition append_chunk (botMessageId chunk : string) (prev : list Message) : list Message :=
  map (fun msg =>
         if (id msg =? botMessageId)%string
         then {| id := id msg; role := role msg;
                 text := (match find (fun m => (id m =? botMessageId)%string) prev with
                          | Some m => text m
                          | None => "undefined"
                          end ++ chunk)%string;
                 timestamp := timestamp msg; isLoading := Some false;
                 chartData := chartData msg; sources := sources msg |}
         else msg) prev.

(** The updater of the [onChart] callback. *)
Definition attach_chart (botMessageId : string) (chart : StockChartData)
    (prev : list Message) : list Message :=
  map (fun msg =>
         if (id msg =? botMessageId)%string
         then {| id := id msg; role := role msg; text := text msg;
                 timestamp := timestamp msg; isLoading := isLoading msg;
                 chartData := Some chart; sources := sources msg |}
         else msg) prev.

(** The final update of a turn that returned. *)
Definition finish (botMessageId : string) (srcs : list GroundingSource)
    (prev : list Message) : list Message :=
  map (fun msg =>
         if (id msg =? botMessageId)%string
         then {| id := id msg; role := role msg; text := text msg;
                 timestamp := timestamp msg; isLoading := Some false;
                 chartData := chartData msg; sources := Some srcs |}
         else msg) prev.

(** The update of the [catch] block. *)
Definition fail (botMessageId : string) (prev : list Message) : list Message :=
  map (fun msg =>
         if (id msg =? botMessageId)%string
         then {| id := id msg; role := role msg; text := errorText;
                 timestamp := timestamp msg; isLoading := Some false;
                 chartData := chartData msg; sources := sources msg |}
         else msg) prev.

(** The two callbacks handed to [sendMessage], run on one of its events. *)
Definition callback (botMessageId : string) (e : Event) (ui : State) : State :=
  match e with
  | OnChunk chunk => setMessages (append_chunk botMessageId chunk) ui
  | OnToolChunk chunk => setMessages (append_chunk botMessageId chunk) ui
  | OnChart chart => setMessages (attach_chart botMessageId chart) ui
  | Send _ => ui
  end.

(** [handleSend()], started in the state [ui] with no other update in
    flight.  The callbacks only queue state updates: they are run over the
    events the turn made, in order. *)
Definition handleSend (ui : State) : M State :=
  if negb (Js.truthy (Some (Js.trim (inputValue ui)))) || loading ui then ret ui
  else
    let userText := inputValue ui in
    let ui := setInputValue "" ui in
    userId <- Date_now ;;
    userTime <- Date_new inp ;;
    let userMessage :=
      {| id := Number_toString userId; role := role_user; text := userText;
         timestamp := userTime; isLoading := None; chartData := None;
         sources := None |} in
    botNow <- Date_now ;;
    let botMessageId := Number_toString (botNow + Js.ofZ 1)%js in
    botTime <- Date_new inp ;;
    let botPlaceholder :=
      {| id := botMessageId; role := role_model; text := "";
         timestamp := botTime; isLoading := Some true; chartData := None;
         sources := None |} in
    let ui := setMessages (fun prev => prev ++ [userMessage; botPlaceholder]) ui in
    let ui := setIsLoading true ui in
    fun w =>
      match sendMessage inp userText w with
      | (Returned result, w') =>
          let ui := fold_left (fun ui e => callback botMessageId e ui)
                      (skipn (List.length (events w)) (events w')) ui in
          let ui := setMessages (finish botMessageId (result_sources result)) ui in
          (Returned (setIsLoading false ui), w')
      | (Thrown error, w') =>
          let ui := fold_left (fun ui e => callback botMessageId e ui)
                      (skipn (List.length (events w)) (events w')) ui in
          let ui := setMessages (fail botMessageId) ui in
          (Returned (setIsLoading false ui), log (Js.message error) w')
      end.

End Components.

End Ui.

(** ** Sample states of the application *)

Module UiRuns.

Local Open Scope string_scope.

(** The user has typed a question into the initial state. *)
Definition typed : Ui.State :=
  Ui.setInputValue " eth? " (Ui.initialState 1699999990000).

(** Only white space has been typed. *)
Definition typed_blank : Ui.State :=
  Ui.setInputValue "   " (Ui.initialState 1699999990000).

(** The model answers in two fragments, then the stream breaks. *)
Definition quiet_script : list Exchange :=
  [Stream [Sample.say "Markets are "; Sample.say "calm."] (Some "connection reset")].

(** A fragment with text, three citations (one without title, one repeated)
    and a price request. *)
Definition cited_chunk : Chunk :=
  {| text := Some "See "%string;
     groundingChunks :=
       Some [ {| web_uri := Some "https://a.example"%string;
                 web_title := Some "A"%string |};
              {| web_uri := Some "https://b.example"%string;
                 web_title := None |};
              {| web_uri := Some "https://a.example"%string;
                 web_title := Some "A"%string |} ];
     functionCalls := Some [Runs.price_call] |}.

(** Citations in the first stream and in the resumed one. *)
Definition cited_script : list Exchange :=
  [Stream [cited_chunk] None;
   Stream [ {| text := Some "the sources."%string;
               groundingChunks :=
                 Some [ {| web_uri := Some "https://c.example"%string;
                           web_title := Some "C"%string |} ];
               functionCalls := None |} ] None].

(** A request whose arguments are empty strings. *)
Definition empty_call (name : string) : FunctionCall :=
  {| call_id := "c5"; call_name := name;
     call_args := Some [("symbol", Js.Str ""); ("period", Js.Str "")] |}.

End UiRuns.

(** ** More vocabulary *)

(** The source a grounding chunk contributes: both [uri] and [title] truthy. *)
Definition cited (c : GroundingChunk) : list GroundingSource :=
  match web_uri c, web_title c with
  | Some u, Some t =>
      if (u =? "")%string || (t =? "")%string then []
      else [ {| title := t; uri := u |} ]
  | _, _ => []
  end.

Definition chunk_sources (chunk : Chunk) : list GroundingSource :=
  match groundingChunks chunk with
  | Some gcs => flat_map cited gcs
  | None => []
  end.

(** The world after [n] more readings of the clock. *)
Definition after_clock (n : nat) (w : World) : World :=
  {| this := this w; events := events w; console := console w;
     randomPos := randomPos w; clockPos := n + clockPos w |}.

(** The last element of a list, if any. *)
Definition last_of {A : Type} (l : list A) : option A :=
  nth_error l (List.length l - 1).

(** Whether a string is made of white space only. *)
Definition blank (s : string) : bool :=
  forallb Js.is_space (list_ascii_of_string s).

(** The [id]s [handleSend] gives to the two messages it appends, [w] being
    the world it starts in. *)
Definition turn_user_id {host : JsHost} (inp : Inputs) (w : World) : string :=
  Number_toString (Js.ofZ (clock inp (clockPos w))).

Definition turn_bot_id {host : JsHost} (inp : Inputs) (w : World) : string :=
  Number_toString (Js.ofZ (clock inp (2 + clockPos w)) + Js.ofZ 1)%js.

(** The placeholder once the callbacks have run over [evs]. *)
Definition bot_after (evs : list Event) (b : Ui.Message) : Ui.Message :=
  {| Ui.id := Ui.id b;
     Ui.role := Ui.role b;
     Ui.text := (Ui.text b ++ join (delivered evs))%string;
     Ui.timestamp := Ui.timestamp b;
     Ui.isLoading := match delivered evs with
                     | [] => Ui.isLoading b
                     | _ :: _ => Some false
                     end;
     Ui.chartData := match last_of (charted evs) with
                     | Some c => Some c
                     | None => Ui.chartData b
                     end;
     Ui.sources := Ui.sources b |}.

(** The session's configuration is unchanged. *)
Definition same_session (c c' : Chat) : Prop :=
  chat_model c' = chat_model c
  /\ chat_instruction c' = chat_instruction c
  /\ chat_tools c' = chat_tools c.

(** From [w] to [w'] the events [evs] happened, nothing was logged, the
    client and the key were left alone, and the open session recorded
    exactly the messages submitted among [evs]. *)
Definition session_extends (w w' : World) (evs : list Event) : Prop :=
  events w' = events w ++ evs
  /\ console w' = console w
  /\ ai (this w') = ai (this w)
  /\ apiKey (this w') = apiKey (this w)
  /\ exists chat chat',
       chatSession (this w) = Some chat
       /\ chatSession (this w') = Some chat'
       /\ same_session chat chat'
       /\ chat_sent chat' = chat_sent chat ++ submitted evs.

(** * Lemmas *)

Lemma same_shell_refl w : same_shell w w.
Proof. repeat split. Qed.

Lemma same_shell_trans w1 w2 w3 :
  same_shell w1 w2 -> same_shell w2 w3 -> same_shell w1 w3.
Proof.
  intros (A1 & A2 & A3) (B1 & B2 & B3).
  repeat split; congruence.
Qed.

Lemma compare_cont_Eq_antisym (p q : positive) :
  Pos.compare_cont Eq q p = CompOpp (Pos.compare_cont Eq p q).
Proof. exact (Pos.compare_antisym p q). Qed.

Lemma SFcompare_antisym (x y : spec_float) :
  SFcompare y x = option_map CompOpp (SFcompare x y).
Proof.
  destruct x as [sx | sx | | sx mx ex], y as [sy | sy | | sy my ey];
    try reflexivity;
    try (destruct sx; reflexivity);
    try (destruct sy; reflexivity);
    try (destruct sx, sy; reflexivity).
  simpl.
  destruct sx, sy; try reflexivity;
    rewrite (Z.compare_antisym ex ey);
    destruct (ex ?= ey)%Z; simpl; try reflexivity;
    rewrite (compare_cont_Eq_antisym mx my);
    destruct (Pos.compare_cont Eq mx my); reflexivity.
Qed.

(** [a > b] and [a < b] never hold together. *)
Lemma gt_not_lt (a b : Js.number) : Js.gt a b = true -> Js.lt a b = false.
Proof.
  unfold Js.gt, Js.lt, SFltb.
  rewrite (SFcompare_antisym a b).
  destruct (SFcompare a b) as [[]|]; simpl; congruence.
Qed.

Lemma append_assoc (a b c : string) : ((a ++ b) ++ c = a ++ (b ++ c))%string.
Proof. induction a as [|x a IH]; simpl; [reflexivity | now rewrite IH]. Qed.

Lemma append_empty_r (a : string) : (a ++ "")%string = a.
Proof. induction a as [|x a IH]; simpl; [reflexivity | now rewrite IH]. Qed.

Lemma join_app (l1 l2 : list string) : join (l1 ++ l2) = (join l1 ++ join l2)%string.
Proof.
  induction l1 as [|x l1 IH]; simpl; [reflexivity|].
  now rewrite IH, append_assoc.
Qed.

Lemma delivered_app (a b : list Event) : delivered (a ++ b) = delivered a ++ delivered b.
Proof.
  induction a as [|e a IH]; [reflexivity|].
  destruct e; simpl; now rewrite ?IH.
Qed.

Lemma submitted_app (a b : list Event) : submitted (a ++ b) = submitted a ++ submitted b.
Proof.
  induction a as [|e a IH]; [reflexivity|].
  destruct e; simpl; now rewrite ?IH.
Qed.

Lemma charted_app (a b : list Event) : charted (a ++ b) = charted a ++ charted b.
Proof.
  induction a as [|e a IH]; [reflexivity|].
  destruct e; simpl; now rewrite ?IH.
Qed.

Lemma delivered_OnChunk (l : list string) : delivered (map OnChunk l) = l.
Proof. induction l as [|x l IH]; simpl; [reflexivity | now rewrite IH]. Qed.

Lemma delivered_OnToolChunk (l : list string) : delivered (map OnToolChunk l) = l.
Proof. induction l as [|x l IH]; simpl; [reflexivity | now rewrite IH]. Qed.

Lemma submitted_OnChunk (l : list string) : submitted (map OnChunk l) = [].
Proof. induction l as [|x l IH]; simpl; [reflexivity | assumption]. Qed.

Lemma submitted_OnToolChunk (l : list string) : submitted (map OnToolChunk l) = [].
Proof. induction l as [|x l IH]; simpl; [reflexivity | assumption]. Qed.



Lemma submitted_OnChart (l : list StockChartData) : submitted (map OnChart l) = [].
Proof. induction l as [|x l IH]; simpl; [reflexivity | assumption]. Qed.

Lemma delivered_OnChart (l : list StockChartData) : delivered (map OnChart l) = [].
Proof. induction l as [|x l IH]; simpl; [reflexivity | assumption]. Qed.

Lemma charted_OnChart (l : list StockChartData) : charted (map OnChart l) = l.
Proof. induction l as [|x l IH]; simpl; [reflexivity | now rewrite IH]. Qed.

(** ** The generator *)

Section GeneratorFacts.

Context {host : JsHost}.
Variable inp : Inputs.

Lemma chart_step_spec period now i cp data0 w :
  exists p w1,
    chart_step inp period now i cp data0 w
      = (Returned ((cp + cp * (random inp (randomPos w) - Js.decimal 5 1) * volatility)%js,
                   data0 ++ [p]), w1)
    /\ date p = point_date period now i
    /\ same_shell w w1.
Proof.
  unfold chart_step, bind, Math_random, ret. cbn [randomPos].
  eexists _, _. split; [reflexivity|].
  split; [|repeat split].
  unfold point_date. cbn [date].
  destruct (Js.strict_eq period "1D"); [reflexivity|].
  destruct (Js.strict_eq period "1Y"); reflexivity.
Qed.

Lemma chart_loop_spec period now i :
  forall cp data0 w,
  exists cp' new w',
    chart_loop inp period now i cp data0 w = (Returned (cp', data0 ++ new), w')
    /\ List.length new = S i
    /\ same_shell w w'
    /\ map date new = map (point_date period now) (countdown i).
Proof.
  induction i as [|j IH]; intros cp data0 w.
  - cbn [chart_loop]. unfold bind at 1.
    destruct (chart_step_spec period now 0 cp data0 w) as (p & w1 & E1 & D1 & Sh1).
    rewrite E1. exists (fst (cp + cp * (random inp (randomPos w) - Js.decimal 5 1)
                               * volatility, data0 ++ [p])%js), [p], w1.
    split; [reflexivity|]. split; [reflexivity|]. split; [exact Sh1|].
    simpl. now rewrite D1.
  - cbn [chart_loop]. unfold bind at 1.
    destruct (chart_step_spec period now (S j) cp data0 w) as (p & w1 & E1 & D1 & Sh1).
    rewrite E1. cbn [fst snd].
    destruct (IH (cp + cp * (random inp (randomPos w) - Js.decimal 5 1) * volatility)%js
                (data0 ++ [p]) w1) as (cp' & new & w' & E & L & Sh & D).
    exists cp', (p :: new), w'.
    rewrite E, <- app_assoc. split; [reflexivity|].
    split; [simpl; now rewrite L|].
    split; [exact (same_shell_trans Sh1 Sh)|].
    cbn [map countdown]. now rewrite D1, D.
Qed.

(** One run of [generateMockChartData], whatever the two values: the points
    are made first, and the run ends in the error of [toUpperCase] when the
    symbol is not a string. *)
Lemma generateMockChartData_run symv per w :
  exists points w' p0 pn,
    generateMockChartData inp symv per w
      = (match upper_failure symv with
         | None =>
             Returned {| symbol := Js.toUpperCase (template symv);
                         data := points;
                         period := per;
                         trend := if Js.gt (price pn) (price p0) then up
                                  else if Js.lt (price pn) (price p0) then down
                                  else neutral |}
         | Some e => Thrown e
         end, w')
    /\ same_shell w w'
    /\ List.length points = S (points_of per)
    /\ nth_error points 0 = Some p0
    /\ nth_error points (List.length points - 1) = Some pn
    /\ map date points
       = map (point_date per (clock inp (clockPos w))) (countdown (points_of per)).
Proof.
  unfold generateMockChartData.
  unfold bind at 1. unfold Date_new at 1.
  unfold bind at 1. unfold Math_random at 1.
  unfold bind at 1.
  match goal with
  | |- context [chart_loop inp per ?now ?n ?c [] ?w1] =>
      destruct (chart_loop_spec per now n c [] w1)
        as (cp' & new & w' & E & L & Sh & D);
      assert (Hn : n = points_of per)
  end.
  { unfold points_of.
    destruct (Js.strict_eq per "1Y"); [reflexivity|].
    destruct (Js.strict_eq per "1M"); [reflexivity|].
    destruct (Js.strict_eq per "1W"); [reflexivity|].
    destruct (Js.strict_eq per "1D"); reflexivity. }
  rewrite E. cbn [snd app].
  destruct new as [|p0 rest]; [discriminate L|].
  assert (Hlast : exists pn, nth_error (p0 :: rest) (List.length (p0 :: rest) - 1) = Some pn).
  { destruct (nth_error (p0 :: rest) (List.length (p0 :: rest) - 1)) eqn:N.
    - eauto.
    - apply nth_error_None in N. simpl in N. lia. }
  destruct Hlast as (pn & Hpn).
  exists (p0 :: rest), w', p0, pn.
  unfold bind, price_of, ret. cbn [nth_error].
  rewrite Hpn.
  split.
  - destruct symv as [s0| | | |]; reflexivity.
  - split; [exact Sh|]. rewrite <- Hn.
    split; [exact L|]. split; [reflexivity|]. split; [reflexivity | exact D].
Qed.

(** What [generateMockChartData] returns for a symbol that is a string,
    field by field. *)
Lemma generateMockChartData_spec (sym : string) per w :
  exists chart w' p0 pn,
    generateMockChartData inp (Js.Str sym) per w = (Returned chart, w')
    /\ same_shell w w'
    /\ symbol chart = Js.toUpperCase sym
    /\ period chart = per
    /\ List.length (data chart) = S (points_of per)
    /\ nth_error (data chart) 0 = Some p0
    /\ nth_error (data chart) (List.length (data chart) - 1) = Some pn
    /\ trend chart = (if Js.gt (price pn) (price p0) then up
                      else if Js.lt (price pn) (price p0) then down
                      else neutral)
    /\ map date (data chart)
       = map (point_date per (clock inp (clockPos w))) (countdown (points_of per)).
Proof.
  destruct (generateMockChartData_run (Js.Str sym) per w)
    as (points & w' & p0 & pn & E & Sh & L & H0 & Hn & D).
  cbn [upper_failure template] in E.
  eexists _, w', p0, pn. split; [exact E|]. cbn [symbol data period trend].
  repeat split; try assumption; apply Sh.
Qed.

End GeneratorFacts.

(** ** The executor *)

Lemma executed_all calls : first_failure calls = None -> executed calls = calls.
Proof.
  induction calls as [|c calls IH]; [reflexivity|].
  cbn. destruct (failure_of c); [discriminate|].
  intros H. now rewrite IH.
Qed.

Lemma has_args_symbol call args :
  call_args call = Some args ->
  Js.or_value (Js.get "symbol" args) (Js.Str "UNKNOWN") = symbol_arg call
  /\ Js.or_value (Js.get "period" args) (Js.Str "1M") = period_arg call.
Proof.
  intros H. unfold symbol_arg, period_arg, args_of. rewrite H. split; reflexivity.
Qed.

Section ExecutorFacts.

Context {host : JsHost}.
Variable inp : Inputs.

(** One request: it is handled, or it throws its error and nothing has
    been called back. *)
Lemma handle_call_spec call rs w :
  exists out evs w',
    handle_call inp call rs w = (out, w')
    /\ this w' = this w
    /\ console w' = console w
    /\ events w' = events w ++ evs
    /\ match failure_of call with
       | None => exists new, out = Returned (rs ++ new) /\ handled call new evs
       | Some e => out = Thrown e /\ evs = []
       end.
Proof.
  unfold handle_call.
  destruct (call_args call) as [args|] eqn:Ha.
  2:{ exists (Thrown (Js.TypeError "Cannot read properties of undefined (reading 'symbol')")),
        [], w.
      unfold failure_of, throw. rewrite Ha, app_nil_r. repeat split. }
  destruct (has_args_symbol call Ha) as [-> ->].
  destruct (call_name call =? "getStockChart")%string eqn:Ec.
  - assert (F : failure_of call = upper_failure (symbol_arg call)).
    { unfold failure_of, is_chart_call. now rewrite Ha, Ec. }
    apply String.eqb_eq in Ec.
    destruct (generateMockChartData_run inp (symbol_arg call) (period_arg call) w)
      as (points & w1 & p0 & pn & E & (T1 & T2 & T3) & L & _ & Hn & _).
    unfold bind. rewrite E, F.
    destruct (upper_failure (symbol_arg call)) as [e|] eqn:U.
    + exists (Thrown e), [], w1. rewrite app_nil_r. repeat split; assumption.
    + eexists _, [OnChart _], _.
      unfold modify, price_of. cbn [data]. rewrite Hn. unfold ret.
      split; [reflexivity|]. cbn [emit this console events].
      split; [exact T1|]. split; [exact T3|]. split; [now rewrite T2|].
      exists [chart_summary call pn]. split; [reflexivity|].
      apply handled_chart; [now rewrite F | exact Ec|].
      repeat split; assumption.
  - assert (F : failure_of call = None).
    { unfold failure_of, is_chart_call. now rewrite Ha, Ec. }
    rewrite F.
    destruct (call_name call =? "getStockPrice")%string eqn:Ep.
    + apply String.eqb_eq in Ep.
      eexists _, [], _.
      unfold bind, Math_random, ret.
      split; [reflexivity|]. cbn [this console events].
      rewrite app_nil_r. repeat split.
      eexists [price_summary call _]. split; [reflexivity|].
      apply handled_price; assumption.
    + exists (Returned rs), [], w. unfold ret. rewrite !app_nil_r.
      repeat split. exists []. rewrite app_nil_r. split; [reflexivity|].
      apply handled_unknown; [exact F|]. unfold known. now rewrite Ec, Ep.
Qed.

(** A batch: its requests are handled in order up to the first one that
    throws, if any. *)
Lemma for_of_handle_call_spec calls :
  forall rs w,
  exists new evs w',
    for_of (handle_call inp) calls rs w
      = (match first_failure calls with
         | None => Returned (rs ++ new)
         | Some e => Thrown e
         end, w')
    /\ batch_handled (executed calls) new evs
    /\ this w' = this w
    /\ console w' = console w
    /\ events w' = events w ++ evs.
Proof.
  induction calls as [|call calls IH]; intros rs w.
  - exists [], [], w. simpl. unfold ret. rewrite !app_nil_r.
    repeat split. constructor.
  - destruct (handle_call_spec call rs w) as (o1 & e1 & w1 & E1 & T1 & C1 & V1 & H1).
    cbn [for_of first_failure executed]. unfold bind. rewrite E1.
    destruct (failure_of call) as [e|].
    + destruct H1 as [-> ->]. exists [], [], w1.
      split; [reflexivity|]. split; [constructor|].
      repeat split; assumption.
    + destruct H1 as (n1 & -> & H1).
      destruct (IH (rs ++ n1) w1) as (n2 & e2 & w2 & E2 & H2 & T2 & C2 & V2).
      exists (n1 ++ n2), (e1 ++ e2), w2.
      rewrite E2, <- app_assoc.
      split; [reflexivity|].
      split; [now constructor|].
      rewrite T2, C2, V2, V1, <- app_assoc. repeat split; assumption.
Qed.

End ExecutorFacts.

Section BatchFacts.

Context {host : JsHost}.

(** The callbacks of a batch are chart callbacks only. *)
Lemma batch_events calls new evs :
  batch_handled calls new evs -> evs = map OnChart (charted evs).
Proof.
  induction 1 as [|call calls new evs news evss H _ IH]; [reflexivity|].
  rewrite charted_app, map_app, <- IH.
  destruct H; reflexivity.
Qed.

(** Every request of a handled batch is free of errors. *)
Lemma batch_sound calls new evs :
  batch_handled calls new evs -> first_failure calls = None.
Proof.
  induction 1 as [|call calls new evs news evss H _ IH]; [reflexivity|].
  cbn. destruct H as [chart pn F _ _ | p F _ | F _]; now rewrite F.
Qed.

(** One response per request of a known name, same order, same [id]. *)
Lemma batch_ids calls new evs :
  batch_handled calls new evs ->
  map id new = map call_id (filter known calls)
  /\ map name new = map call_name (filter known calls).
Proof.
  induction 1 as [|call calls new evs news evss H _ [IH1 IH2]]; [split; reflexivity|].
  rewrite !map_app, IH1, IH2. simpl.
  destruct H as [chart pn _ Hn _ | p _ Hn | _ Hk].
  - unfold known. rewrite Hn. simpl. split; reflexivity.
  - unfold known. rewrite Hn. simpl. split; reflexivity.
  - rewrite Hk. split; reflexivity.
Qed.



(** The charts of a batch are those of its [getStockChart] requests, in
    order. *)
Lemma batch_charts calls new evs :
  batch_handled calls new evs ->
  map symbol (charted evs)
    = map (fun c => Js.toUpperCase (template (symbol_arg c))) (filter is_chart_call calls)
  /\ map period (charted evs) = map period_arg (filter is_chart_call calls).
Proof.
  induction 1 as [|call calls new evs news evss H _ [IH1 IH2]]; [split; reflexivity|].
  rewrite charted_app, !map_app, IH1, IH2. cbn [filter].
  destruct H as [chart pn _ Hn (C1 & C2 & _) | p _ Hn | _ Hk].
  - assert (I : is_chart_call call = true) by (unfold is_chart_call; now rewrite Hn).
    rewrite I. cbn. rewrite C1, C2. split; reflexivity.
  - assert (I : is_chart_call call = false) by (unfold is_chart_call; now rewrite Hn).
    rewrite I. split; reflexivity.
  - assert (I : is_chart_call call = false).
    { unfold known in Hk. now apply orb_false_iff in Hk as [Hk _]. }
    rewrite I. split; reflexivity.
Qed.


End BatchFacts.

(** ** The shape of the trace of one fragment and of one turn *)

Section StreamFacts.

Context {host : JsHost}.
Variable inp : Inputs.

Lemma sendMessageStream_spec message w chat :
  chatSession (this w) = Some chat ->
  exists w' chat',
    sendMessageStream inp message w = (answer inp (chat_sent chat ++ [message]), w')
    /\ chatSession (this w') = Some chat'
    /\ chat_sent chat' = chat_sent chat ++ [message]
    /\ console w' = console w
    /\ events w' = events w ++ [Send message].
Proof.
  intros Hc. unfold sendMessageStream, answer. rewrite Hc.
  destruct (model inp (chat_sent chat ++ [message])) as [e|chunks failure];
    eexists _, _; (split; [reflexivity|]); simpl; repeat split.
Qed.

Lemma on_tool_chunk_spec toolChunk full w :
  exists w1,
    on_tool_chunk toolChunk full w
      = (Returned (full ++ join (chunk_text toolChunk))%string, w1)
    /\ this w1 = this w
    /\ console w1 = console w
    /\ events w1 = events w ++ map OnToolChunk (chunk_text toolChunk)
    /\ randomPos w1 = randomPos w.
Proof.
  unfold on_tool_chunk, chunk_text. destruct (text toolChunk) as [t|].
  - unfold Js.truthy. destruct (t =? "")%string; simpl.
    + exists w. unfold ret. rewrite append_empty_r, app_nil_r. repeat split.
    + eexists. unfold bind, modify, ret. rewrite append_empty_r.
      split; [reflexivity|]. repeat split.
  - exists w. unfold ret. simpl. rewrite append_empty_r, app_nil_r. repeat split.
Qed.

(** A resumed stream: every truthy [text] is delivered and appended;
    nothing else of the fragments is looked at. *)
Lemma tool_stream_spec chunks failure :
  forall full w,
  exists w',
    for_await on_tool_chunk chunks failure full w =
      (match failure with
       | None => Returned (full ++ join (flat_map chunk_text chunks))%string
       | Some e => Thrown (Js.ModelError e)
       end, w')
    /\ this w' = this w
    /\ console w' = console w
    /\ events w' = events w ++ map OnToolChunk (flat_map chunk_text chunks)
    /\ randomPos w' = randomPos w.
Proof.
  induction chunks as [|c chunks IH]; intros full w.
  - exists w. simpl. rewrite append_empty_r, app_nil_r.
    destruct failure; repeat split.
  - cbn [for_await flat_map]. unfold bind at 1.
    destruct (on_tool_chunk_spec c full w) as (w1 & E1 & T1 & C1 & V1 & R1).
    rewrite E1.
    destruct (IH (full ++ join (chunk_text c))%string w1) as (w' & E & T & C & V & R).
    exists w'. rewrite E, join_app, append_assoc, map_app, app_assoc, <- V1.
    repeat split; congruence.
Qed.

Lemma batch_quiet calls evs : batch_handled calls [] evs -> evs = [].
Proof.
  intros H. remember [] as new eqn:E. revert E.
  induction H as [|call calls new evs news evss H _ IH]; [reflexivity|].
  intros E. apply app_eq_nil in E as [E1 E2].
  rewrite (IH E2), app_nil_r.
  destruct H; [discriminate E1 | discriminate E1 | reflexivity].
Qed.

Lemma text_stage chunk full w :
  exists w1,
    match text chunk with
    | Some text =>
        if Js.truthy (Some text) then
          modify (emit (OnChunk text)) ;;;
          ret (full ++ text)%string
        else ret full
    | None => ret full
    end w = (Returned (full ++ join (chunk_text chunk))%string, w1)
    /\ this w1 = this w
    /\ console w1 = console w
    /\ events w1 = events w ++ map OnChunk (chunk_text chunk).
Proof.
  unfold chunk_text. destruct (text chunk) as [t|].
  - unfold Js.truthy. destruct (t =? "")%string; simpl.
    + exists w. unfold ret. rewrite append_empty_r, app_nil_r. repeat split.
    + eexists. unfold bind, modify, ret. rewrite append_empty_r.
      split; [reflexivity|]. repeat split.
  - exists w. unfold ret. simpl. rewrite append_empty_r, app_nil_r. repeat split.
Qed.

Lemma on_chunk_spec chunk full sources w chat :
  chatSession (this w) = Some chat ->
  first_failure (calls_of chunk) = None ->
  exists out w' evs chat',
    on_chunk inp chunk (full, sources) w = (out, w')
    /\ chunk_trace chunk evs
    /\ events w' = events w ++ evs
    /\ console w' = console w
    /\ chatSession (this w') = Some chat'
    /\ (forall full' sources', out = Returned (full', sources') ->
          full' = (full ++ join (delivered evs))%string)
    /\ (forall e, out = Thrown e -> exists msg, e = Js.ModelError msg).
Proof.
  intros Hc Hff. unfold on_chunk. unfold bind at 1.
  destruct (text_stage chunk full w) as (w1 & E1 & T1 & C1 & V1).
  rewrite E1. clear E1.
  assert (Hc1 : chatSession (this w1) = Some chat) by now rewrite T1.
  set (srcs := match groundingChunks chunk with
               | Some gcs => fold_left (fun acc c => push_source c acc) gcs sources
               | None => sources
               end).
  set (full1 := (full ++ join (chunk_text chunk))%string).
  assert (Plain : forall calls, calls_of chunk = calls -> batch_handled calls [] [] ->
            exists out w' evs chat',
              (Returned (full1, srcs), w1) = (out, w')
              /\ chunk_trace chunk evs
              /\ events w' = events w ++ evs
              /\ console w' = console w
              /\ chatSession (this w') = Some chat'
              /\ (forall full' sources', out = Returned (full', sources') ->
                    full' = (full ++ join (delivered evs))%string)
              /\ (forall e, out = Thrown e -> exists msg, e = Js.ModelError msg)).
  { intros calls Ecalls Hb.
    exists (Returned (full1, srcs)), w1, (map OnChunk (chunk_text chunk)), chat.
    split; [reflexivity|].
    split; [apply chunk_plain; now rewrite Ecalls|].
    split; [assumption|]. split; [assumption|]. split; [assumption|].
    split.
    - intros f s [= <- _]. now rewrite delivered_OnChunk.
    - intros e He. discriminate He. }
  destruct (functionCalls chunk) as [[|call calls]|] eqn:Ef.
  - apply (Plain []); [unfold calls_of; now rewrite Ef | constructor].
  - unfold bind at 1.
    assert (Ecalls : calls_of chunk = call :: calls)
      by (unfold calls_of; now rewrite Ef).
    rewrite Ecalls in Hff.
    destruct (for_of_handle_call_spec inp (call :: calls) [] w1)
      as (new & cevs & w2 & E2 & Hb & T2 & C2 & V2).
    rewrite Hff in E2. rewrite (executed_all _ Hff) in Hb.
    rewrite E2. clear E2. cbn [app].
    destruct new as [|r new].
    + cbn [List.length Nat.ltb Nat.leb]. unfold ret.
      pose proof (batch_quiet Hb) as ->.
      rewrite app_nil_r in V2.
      exists (Returned (full1, srcs)), w2, (map OnChunk (chunk_text chunk)), chat.
      split; [reflexivity|].
      split; [apply chunk_plain; now rewrite Ecalls|].
      split; [now rewrite V2, V1|].
      split; [now rewrite C2, C1|].
      split; [now rewrite T2|].
      split.
      * intros f s [= <- _]. now rewrite delivered_OnChunk.
      * intros e He. discriminate He.
    + cbn [List.length Nat.ltb Nat.leb]. unfold bind at 1.
      assert (Hc2 : chatSession (this w2) = Some chat) by now rewrite T2.
      destruct (sendMessageStream_spec (ToolResponses (r :: new)) w2 Hc2)
        as (w3 & chat3 & E3 & Hc3 & _ & C3 & V3).
      rewrite E3. clear E3.
      assert (Vall : forall ts, events w3 ++ map OnToolChunk ts =
                events w ++ map OnChunk (chunk_text chunk) ++ cevs
                ++ Send (ToolResponses (r :: new)) :: map OnToolChunk ts).
      { intros ts. rewrite V3, V2, V1, <- !app_assoc. reflexivity. }
      unfold answer.
      destruct (model inp (chat_sent chat ++ [ToolResponses (r :: new)]))
        as [e|resumed failure].
      * eexists _, w3,
          (map OnChunk (chunk_text chunk) ++ cevs
           ++ Send (ToolResponses (r :: new))
              :: map OnToolChunk (flat_map chunk_text [])), chat3.
        split; [reflexivity|].
        split; [apply chunk_tools; [now rewrite Ecalls | discriminate]|].
        split; [rewrite <- Vall; simpl; now rewrite app_nil_r|].
        split; [now rewrite C3, C2, C1|].
        split; [assumption|].
        split.
        -- intros f s Hout. discriminate Hout.
        -- intros e' [= <-]. eauto.
      * cbn [fst snd]. unfold bind at 1.
        destruct (tool_stream_spec resumed failure full1 w3)
          as (w4 & E4 & T4 & C4 & V4 & _).
        rewrite E4. clear E4.
        exists (match failure with
                | Some e => Thrown (Js.ModelError e)
                | None => Returned
                    ((full1 ++ join (flat_map chunk_text resumed))%string, srcs)
                end), w4,
          (map OnChunk (chunk_text chunk) ++ cevs
           ++ Send (ToolResponses (r :: new))
              :: map OnToolChunk (flat_map chunk_text resumed)), chat3.
        split; [destruct failure; reflexivity|].
        split; [apply chunk_tools; [now rewrite Ecalls | discriminate]|].
        split; [now rewrite V4, Vall|].
        split; [now rewrite C4, C3, C2, C1|].
        split; [now rewrite T4|].
        split.
        -- intros f s Hout. destruct failure; [discriminate Hout|].
           injection Hout as <- _.
           rewrite !delivered_app, delivered_OnChunk. cbn [delivered].
           rewrite delivered_OnToolChunk, (batch_events Hb), delivered_OnChart.
           cbn [app]. unfold full1.
           now rewrite join_app, append_assoc.
        -- intros e' He. destruct failure as [e0|]; [|discriminate He].
           injection He as <-. eauto.
  - apply (Plain []); [unfold calls_of; now rewrite Ef | constructor].
Qed.

(** A fragment whose batch holds a request that throws: the error leaves
    [on_chunk] after the text and the callbacks of the earlier requests. *)
Lemma on_chunk_abort chunk full sources w e :
  first_failure (calls_of chunk) = Some e ->
  exists w' evs,
    on_chunk inp chunk (full, sources) w = (Thrown e, w')
    /\ aborted_at chunk e evs
    /\ events w' = events w ++ evs
    /\ console w' = console w
    /\ this w' = this w.
Proof.
  intros Hff. unfold on_chunk. unfold bind at 1.
  destruct (text_stage chunk full w) as (w1 & E1 & T1 & C1 & V1).
  rewrite E1. clear E1.
  pose proof Hff as Hff'. unfold calls_of in Hff'.
  destruct (functionCalls chunk) as [[|call calls]|] eqn:Ef; try discriminate Hff'.
  unfold bind at 1.
  destruct (for_of_handle_call_spec inp (call :: calls) [] w1)
    as (new & cevs & w2 & E2 & Hb & T2 & C2 & V2).
  rewrite Hff' in E2. rewrite E2.
  exists w2, (map OnChunk (chunk_text chunk) ++ cevs).
  split; [reflexivity|].
  split.
  - split; [exact Hff|]. exists new, cevs.
    unfold calls_of. rewrite Ef. split; [exact Hb | reflexivity].
  - split; [now rewrite V2, V1, app_assoc|].
    split; [now rewrite C2 | now rewrite T2].
Qed.

End StreamFacts.

Section TurnFacts.

Context {host : JsHost}.
Variable inp : Inputs.

(** The first stream: fragments are processed in order until the stream
    ends, a resumed stream fails, or a request throws. *)
Lemma first_stream_spec chunks failure :
  forall full sources w chat,
  chatSession (this w) = Some chat ->
  exists out w' done rest evs chat',
    for_await (on_chunk inp) chunks failure (full, sources) w = (out, w')
    /\ chunks = done ++ rest
    /\ events w' = events w ++ evs
    /\ console w' = console w
    /\ chatSession (this w') = Some chat'
    /\ ((stream_trace done evs
         /\ (forall st, out = Returned st ->
               rest = [] /\ failure = None
               /\ fst st = (full ++ join (delivered evs))%string)
         /\ (forall e, out = Thrown e -> exists msg, e = Js.ModelError msg))
        \/ (exists e chunk rest' evs1 evs2,
              out = Thrown e
              /\ rest = chunk :: rest'
              /\ stream_trace done evs1
              /\ aborted_at chunk e evs2
              /\ evs = evs1 ++ evs2)).
Proof.
  induction chunks as [|chunk chunks IH]; intros full sources w chat Hc.
  - exists (match failure with
            | None => Returned (full, sources)
            | Some e => Thrown (Js.ModelError e)
            end), w, [], [], [], chat.
    split; [simpl; destruct failure; reflexivity|].
    split; [reflexivity|].
    rewrite app_nil_r. split; [reflexivity|]. split; [reflexivity|].
    split; [assumption|].
    left. split; [constructor|]. split.
    + intros st H. destruct failure; [discriminate H|].
      injection H as <-. simpl. now rewrite append_empty_r.
    + intros e H. destruct failure as [e0|]; [|discriminate H].
      injection H as <-. eauto.
  - cbn [for_await]. unfold bind at 1.
    destruct (first_failure (calls_of chunk)) as [e|] eqn:Hff.
    + destruct (on_chunk_abort inp chunk full sources w Hff)
        as (w1 & evs1 & E1 & A1 & V1 & C1 & T1).
      rewrite E1.
      exists (Thrown e), w1, [], (chunk :: chunks), evs1, chat.
      split; [reflexivity|]. split; [reflexivity|].
      split; [exact V1|]. split; [exact C1|].
      split; [now rewrite T1|].
      right. exists e, chunk, chunks, [], evs1.
      split; [reflexivity|]. split; [reflexivity|].
      split; [constructor|]. split; [exact A1 | reflexivity].
    + destruct (on_chunk_spec inp chunk full sources w Hc Hff)
        as (out1 & w1 & evs1 & chat1 & E1 & Tr1 & V1 & C1 & Hc1 & F1 & G1).
      rewrite E1. destruct out1 as [[full1 sources1]|e].
      * destruct (IH full1 sources1 w1 chat1 Hc1)
          as (out & w' & done & rest & evs & chat' & E & Ed & V & C & Hc' & F).
        exists out, w', (chunk :: done), rest, (evs1 ++ evs), chat'.
        split; [exact E|].
        split; [simpl; now rewrite Ed|].
        split; [now rewrite V, V1, app_assoc|].
        split; [now rewrite C|].
        split; [assumption|].
        destruct F as [(Tr & F & G) | (e & c & rest' & ev1 & ev2 & Ho & Er & Tr & A & Ev)].
        -- left. split; [now constructor|]. split; [|exact G].
           intros st Hst. destruct (F st Hst) as (R1 & R2 & R3).
           repeat split; try assumption.
           rewrite R3, (F1 full1 sources1 eq_refl), delivered_app, join_app.
           apply append_assoc.
        -- right. exists e, c, rest', (evs1 ++ ev1), ev2.
           split; [exact Ho|]. split; [exact Er|].
           split; [now constructor|]. split; [exact A|].
           now rewrite Ev, app_assoc.
      * exists (Thrown e), w1, [chunk], chunks, (evs1 ++ []), chat1.
        split; [reflexivity|]. split; [reflexivity|].
        split; [now rewrite app_nil_r|].
        split; [assumption|]. split; [assumption|].
        left. split; [constructor; [assumption | constructor]|].
        split.
        -- intros st Hst. discriminate Hst.
        -- intros e' [= <-]. exact (G1 e eq_refl).
Qed.

(** One turn: the user's message is submitted; if the model accepts it,
    fragments of the answer are processed in order. *)
Lemma sendMessage_spec message w :
  exists out w' evs,
    sendMessage inp message w = (out, w')
    /\ events w' = events w ++ Send (UserMessage message) :: evs
    /\ (forall e, model inp (history w ++ [UserMessage message]) = Rejected e ->
          out = Thrown (Js.ModelError e) /\ evs = [])
    /\ (forall chunks failure,
          model inp (history w ++ [UserMessage message]) = Stream chunks failure ->
          exists done rest,
            chunks = done ++ rest
            /\ ((stream_trace done evs
                 /\ (forall r, out = Returned r ->
                       rest = [] /\ failure = None
                       /\ result_text r = join (delivered evs))
                 /\ (forall e, out = Thrown e -> exists msg, e = Js.ModelError msg))
                \/ (exists e chunk rest' evs1 evs2,
                      out = Thrown e
                      /\ rest = chunk :: rest'
                      /\ stream_trace done evs1
                      /\ aborted_at chunk e evs2
                      /\ evs = evs1 ++ evs2))).
Proof.
  unfold sendMessage. unfold bind at 1.
  assert (Init : exists w0 chat,
            (match chatSession (this w) with
             | Some _ => (Returned tt, w)
             | None => initializeChat w
             end) = (Returned tt, w0)
            /\ chatSession (this w0) = Some chat
            /\ chat_sent chat = history w
            /\ events w0 = events w).
  { unfold history. destruct (chatSession (this w)) as [chat|] eqn:Hc.
    - exists w, chat. repeat split. assumption.
    - eexists _, _. unfold initializeChat, modify.
      split; [reflexivity|]. simpl. repeat split. }
  destruct Init as (w0 & chat & E0 & Hc0 & Hh & V0).
  rewrite E0. clear E0.
  unfold try_catch. unfold bind at 1.
  destruct (sendMessageStream_spec inp (UserMessage message) w0 Hc0)
    as (w1 & chat1 & E1 & Hc1 & _ & C1 & V1).
  rewrite E1. clear E1. rewrite Hh. unfold answer.
  destruct (model inp (history w ++ [UserMessage message]))
    as [e|chunks failure] eqn:Em.
  - eexists _, _, []. unfold bind, modify, throw.
    split; [reflexivity|].
    split; [simpl; now rewrite V1, V0|].
    split; [intros e' [= <-]; split; reflexivity|].
    intros chunks failure Hm. discriminate Hm.
  - cbn [fst snd]. unfold bind at 1.
    destruct (first_stream_spec chunks failure ""%string [] w1 Hc1)
      as (out & w' & done & rest & evs & chat' & E & Ed & V & C & Hc' & F).
    rewrite E. clear E.
    assert (Vw : events w' = events w ++ Send (UserMessage message) :: evs).
    { rewrite V, V1, V0, <- app_assoc. reflexivity. }
    destruct out as [st|e].
    + eexists _, w', evs. unfold ret.
      split; [reflexivity|]. split; [exact Vw|].
      split; [intros e Hm; discriminate Hm|].
      intros chunks' failure' [= <- <-].
      exists done, rest. split; [assumption|].
      destruct F as [(Tr & F & G) | (e & c & rest' & ev1 & ev2 & Ho & _)];
        [|discriminate Ho].
      left. split; [exact Tr|]. split.
      * intros r [= <-]. destruct (F st eq_refl) as (R1 & R2 & R3).
        repeat split; assumption.
      * intros e He. discriminate He.
    + eexists _, _, evs. unfold bind, modify, throw.
      split; [reflexivity|]. split; [simpl; exact Vw|].
      split; [intros e' Hm; discriminate Hm|].
      intros chunks' failure' [= <- <-].
      exists done, rest. split; [assumption|].
      destruct F as [(Tr & F & G) | (e0 & c & rest' & ev1 & ev2 & Ho & Er & Tr & A & Ev)].
      * left. split; [exact Tr|]. split.
        -- intros r Hr. discriminate Hr.
        -- intros e' [= <-]. exact (G e eq_refl).
      * right. exists e0, c, rest', ev1, ev2. injection Ho as ->.
        split; [reflexivity|]. split; [exact Er|]. split; [exact Tr|].
        split; [exact A | exact Ev].
Qed.

End TurnFacts.


(** ** Order of the callbacks *)

Section Ordering.

Context {host : JsHost}.














End Ordering.

(** * The claims *)

Section Claims.

Context {host : JsHost}.
Variable inp : Inputs.

(** C1 (as the code has it).  A request that has an [args] object and
    whose name is not the name of a declared tool is skipped: [handle_call]
    returns normally, the list of responses is unchanged and no callback
    runs; and a fragment is processed as if the request were not in its
    batch, wherever it stands in it (so nothing is submitted to the model
    for it). *)
Theorem unknown_tool_skipped call args rs w t g before after st :
  ~ In (call_name call) toolNames ->
  call_args call = Some args ->
  handle_call inp call rs w = (Returned rs, w)
  /\ on_chunk inp {| text := t; groundingChunks := g;
                     functionCalls := Some (before ++ call :: after) |} st w
     = on_chunk inp {| text := t; groundingChunks := g;
                       functionCalls := Some (before ++ after) |} st w.
Proof.
  intros Hn Ha.
  assert (Ec : (call_name call =? "getStockChart")%string = false).
  { apply String.eqb_neq. intros E. apply Hn. rewrite E. now left. }
  assert (Ep : (call_name call =? "getStockPrice")%string = false).
  { apply String.eqb_neq. intros E. apply Hn. rewrite E. right. now left. }
  assert (Skip : forall rs' w', handle_call inp call rs' w' = (Returned rs', w')).
  { intros rs' w'. unfold handle_call. now rewrite Ha, Ec, Ep. }
  split; [apply Skip|].
  assert (Batch : forall pre rs' w',
            for_of (handle_call inp) (pre ++ call :: after) rs' w'
            = for_of (handle_call inp) (pre ++ after) rs' w').
  { induction pre as [|x pre IH]; intros rs' w'.
    - cbn [app for_of]. unfold bind. now rewrite Skip.
    - cbn [app for_of]. unfold bind.
      destruct (handle_call inp x rs' w') as [[a|e] w2]; [apply IH | reflexivity]. }
  destruct st as [full sources].
  destruct (text_stage {| text := t; groundingChunks := g; functionCalls := None |} full w)
    as (w1 & E1 & _).
  cbn [text] in E1.
  unfold on_chunk. cbn [text groundingChunks functionCalls].
  destruct before as [|x pre]; [destruct after as [|c cs]|].
  - cbn [app for_of]. unfold bind in E1 |- *. rewrite !E1, Skip. reflexivity.
  - pose proof (Batch [] [] w1) as B. cbn [app] in B |- *.
    unfold bind in E1 |- *. rewrite !E1, B. reflexivity.
  - pose proof (Batch (x :: pre) [] w1) as B. cbn [app] in B |- *.
    unfold bind in E1 |- *. rewrite !E1, B. reflexivity.
Qed.

(** C2 (as the code has it).  For the batch of a fragment of the first
    stream in which no request throws (each has an [args] object, and the
    symbol of each chart request is a string once defaulted), one response
    is produced per request whose name is [getStockChart] or
    [getStockPrice], in the order of the requests and with the [id] and
    [name] of its request; when there is at least one response they are all
    submitted in one message, otherwise nothing is submitted. *)
Theorem tool_results_correlate chunk st w chat :
  chatSession (this w) = Some chat ->
  first_failure (calls_of chunk) = None ->
  exists evs rs,
    events (snd (on_chunk inp chunk st w)) = events w ++ evs
    /\ map id rs = map call_id (filter known (calls_of chunk))
    /\ map name rs = map call_name (filter known (calls_of chunk))
    /\ submitted evs = match rs with
                       | [] => []
                       | _ :: _ => [ToolResponses rs]
                       end.
Proof.
  intros Hc Hff. destruct st as [full sources].
  destruct (on_chunk_spec inp chunk full sources w Hc Hff)
    as (out & w' & evs & chat' & E & Tr & V & _).
  rewrite E. cbn [snd].
  destruct Tr as [Hb | new cevs resumed Hb Hne].
  - exists (map OnChunk (chunk_text chunk)), [].
    destruct (batch_ids Hb) as [I1 I2].
    rewrite submitted_OnChunk. repeat split; assumption.
  - eexists _, new. split; [exact V|].
    destruct (batch_ids Hb) as [I1 I2].
    split; [exact I1|]. split; [exact I2|].
    rewrite !submitted_app, submitted_OnChunk, (batch_events Hb). cbn [submitted].
    rewrite submitted_OnToolChunk, submitted_OnChart.
    destruct new; [now elim Hne | reflexivity].
Qed.


(** C4.  When a turn returns, the text of its result is the in-order
    concatenation of the texts handed to [onChunk] during the turn, those
    of resumed streams included. *)
Theorem fullText_is_concatenation message w r w' :
  sendMessage inp message w = (Returned r, w') ->
  exists evs,
    events w' = events w ++ evs
    /\ result_text r = join (delivered evs).
Proof.
  intros Hrun.
  destruct (sendMessage_spec inp message w) as (out & w2 & evs & E & V & Hr & Hs).
  rewrite Hrun in E. injection E as <- <-.
  exists (Send (UserMessage message) :: evs). split; [exact V|].
  destruct (model inp (history w ++ [UserMessage message])) as [e|chunks failure] eqn:Em.
  - destruct (Hr e eq_refl) as [Hout _]. discriminate Hout.
  - destruct (Hs chunks failure eq_refl)
      as (done & rest & _ & [(_ & F & _) | (e & c & rest' & ev1 & ev2 & Ho & _)]);
      [|discriminate Ho].
    destruct (F r eq_refl) as (_ & _ & Ht). exact Ht.
Qed.


(** C6 (as the code has it).  Without an API key the constructor logs an
    error and keeps the empty string as key, and creating the session
    succeeds.  The caller gets a failure when the model rejects the first
    message, and then no fragment has been delivered. *)
Theorem missing_api_key_not_fatal message w e :
  model inp [UserMessage message] = Rejected e ->
  exists w1 w2 w3 chat,
    constructor None w = (Returned tt, w1)
    /\ console w1 = console w ++ ["API_KEY is missing from environment variables"%string]
    /\ apiKey (this w1) = ""%string
    /\ chatSession (this w1) = None
    /\ initializeChat w1 = (Returned tt, w2)
    /\ chatSession (this w2) = Some chat
    /\ sendMessage inp message w1 = (Thrown (Js.ModelError e), w3)
    /\ events w3 = events w ++ [Send (UserMessage message)].
Proof.
  intros Hm.
  eexists _, _, _, _.
  split; [reflexivity|]. cbn.
  split; [reflexivity|]. split; [reflexivity|]. split; [reflexivity|].
  split; [reflexivity|]. split; [reflexivity|].
  unfold sendMessage, bind, try_catch, initializeChat, modify, sendMessageStream.
  cbn. rewrite Hm. split; reflexivity.
Qed.

(** C7 (what the code does).  A request of a known name that has an [args]
    object is executed with the default for a missing argument: without
    [symbol] the symbol is "UNKNOWN", and a [getStockChart] request without
    [period] gets the chart of "1M", if its symbol is a string.  A request
    that has no [args] object at all is not defaulted: reading its symbol
    throws a [TypeError], and no response is produced. *)
Theorem missing_arguments_defaulted call rs w :
  known call = true ->
  (call_args call = None ->
   handle_call inp call rs w
   = (Thrown (Js.TypeError "Cannot read properties of undefined (reading 'symbol')"), w))
  /\ (forall args,
        call_args call = Some args ->
        Js.get "symbol" args = None ->
        exists new w',
          handle_call inp call rs w = (Returned (rs ++ [new]), w')
          /\ id new = call_id call
          /\ name new = call_name call
          /\ (call_name call = "getStockPrice"%string ->
              events w' = events w
              /\ exists p,
                   response_result new
                   = ("The current price of UNKNOWN is $" ++ p ++ ".")%string)
          /\ (call_name call = "getStockChart"%string ->
              exists chart pn,
                events w' = events w ++ [OnChart chart]
                /\ symbol chart = "UNKNOWN"%string
                /\ response_result new
                   = ("Chart generated for UNKNOWN. Current price is "
                      ++ Number_toString (price pn) ++ ".")%string))
  /\ (forall args,
        call_args call = Some args ->
        call_name call = "getStockChart"%string ->
        Js.get "period" args = None ->
        upper_failure (symbol_arg call) = None ->
        exists chart pn w',
          handle_call inp call rs w = (Returned (rs ++ [chart_summary call pn]), w')
          /\ events w' = events w ++ [OnChart chart]
          /\ period chart = Js.Str "1M"
          /\ List.length (data chart) = 31).
Proof.
  intros Hk.
  destruct (handle_call_spec inp call rs w) as (out & evs & w' & E & _ & _ & V & H).
  split; [|split].
  - intros Ha. unfold handle_call. now rewrite Ha.
  - intros args Ha Hs.
    assert (Sy : symbol_arg call = Js.Str "UNKNOWN").
    { unfold symbol_arg, args_of. now rewrite Ha, Hs. }
    assert (F : failure_of call = None).
    { unfold failure_of. rewrite Ha, Sy. now destruct (is_chart_call call). }
    rewrite F in H. destruct H as (new & -> & H).
    destruct H as [chart pn _ Hn (C1 & C2 & C3 & C4) | p _ Hn | _ Hu].
    + exists (chart_summary call pn), w'.
      split; [exact E|]. split; [reflexivity|]. split; [reflexivity|].
      split.
      * intros Hn'. rewrite Hn in Hn'. discriminate Hn'.
      * intros _. exists chart, pn.
        split; [exact V|].
        split; [rewrite C1, Sy; reflexivity|].
        unfold chart_summary. cbn [response_result]. rewrite Sy. reflexivity.
    + exists (price_summary call p), w'.
      split; [exact E|]. split; [reflexivity|]. split; [reflexivity|].
      split.
      * intros _. rewrite app_nil_r in V. split; [exact V|].
        exists p. unfold price_summary. cbn [response_result]. rewrite Sy. reflexivity.
      * intros Hn'. rewrite Hn in Hn'. discriminate Hn'.
    + rewrite Hk in Hu. discriminate Hu.
  - intros args Ha Hn Hp Hu.
    assert (Pe : period_arg call = Js.Str "1M").
    { unfold period_arg, args_of. now rewrite Ha, Hp. }
    assert (F : failure_of call = None).
    { unfold failure_of, is_chart_call. rewrite Ha, Hn. exact Hu. }
    rewrite F in H. destruct H as (new & -> & H).
    destruct H as [chart pn _ _ (C1 & C2 & C3 & C4) | p _ Hn' | _ Hu'].
    + exists chart, pn, w'. rewrite Pe in C2, C3.
      split; [exact E|]. split; [exact V|]. split; [exact C2 | exact C3].
    + rewrite Hn in Hn'. discriminate Hn'.
    + rewrite Hk in Hu'. discriminate Hu'.
Qed.

(** C8.  The chart returned for points [p0 .. pn] has trend [up] exactly
    when [pn.price > p0.price], [down] exactly when [pn.price < p0.price],
    and [neutral] otherwise. *)
Theorem trend_derivation (sym per : string) w :
  exists chart w' p0 pn,
    generateMockChartData inp (Js.Str sym) (Js.Str per) w = (Returned chart, w')
    /\ nth_error (data chart) 0 = Some p0
    /\ nth_error (data chart) (List.length (data chart) - 1) = Some pn
    /\ (trend chart = up <-> Js.gt (price pn) (price p0) = true)
    /\ (trend chart = down <-> Js.lt (price pn) (price p0) = true)
    /\ (trend chart = neutral <->
          Js.gt (price pn) (price p0) = false /\ Js.lt (price pn) (price p0) = false).
Proof.
  destruct (generateMockChartData_spec inp sym (Js.Str per) w)
    as (chart & w' & p0 & pn & E & _ & _ & _ & _ & H0 & Hn & Ht & _).
  exists chart, w', p0, pn.
  split; [exact E|]. split; [exact H0|]. split; [exact Hn|].
  rewrite Ht.
  pose proof (gt_not_lt (price pn) (price p0)) as A.
  destruct (Js.gt (price pn) (price p0)).
  - rewrite (A eq_refl). intuition congruence.
  - destruct (Js.lt (price pn) (price p0)); intuition congruence.
Qed.

(** C10.  [generateMockChartData] returns for every symbol and every
    period string; the chart carries the period string as given and has
    25 points for "1D", 8 for "1W", 31 for "1M", 13 for "1Y" and 31 for any
    other string. *)
Theorem generateMockChartData_total (sym per : string) w :
  exists chart w',
    generateMockChartData inp (Js.Str sym) (Js.Str per) w = (Returned chart, w')
    /\ period chart = Js.Str per
    /\ List.length (data chart)
       = (if (per =? "1D")%string then 25
          else if (per =? "1W")%string then 8
          else if (per =? "1M")%string then 31
          else if (per =? "1Y")%string then 13
          else 31).
Proof.
  destruct (generateMockChartData_spec inp sym (Js.Str per) w)
    as (chart & w' & p0 & pn & E & _ & _ & Hp & Hl & _).
  exists chart, w'. split; [exact E|]. split; [exact Hp|].
  rewrite Hl. clear. unfold points_of. cbn [Js.strict_eq].
  destruct (per =? "1D")%string eqn:E1;
    [apply String.eqb_eq in E1; subst per; reflexivity|].
  destruct (per =? "1W")%string eqn:E2;
    [apply String.eqb_eq in E2; subst per; reflexivity|].
  destruct (per =? "1M")%string eqn:E3;
    [apply String.eqb_eq in E3; subst per; reflexivity|].
  destruct (per =? "1Y")%string; reflexivity.
Qed.

End Claims.

(** C9.  A chart for "1W" has exactly 8 points, labelled with the dates of
    the 7 days before the current one and of the current day, in that order;
    and the number of points of a chart is a function of the period alone:
    whatever the symbol, the host, the inputs and the state. *)
Theorem point_count_depends_on_period_only :
  exists count : string -> nat,
    count "1W"%string = 8
    /\ (forall (host : JsHost) (inp : Inputs) (sym per : string) (w : World),
        exists chart w',
          generateMockChartData inp (Js.Str sym) (Js.Str per) w = (Returned chart, w')
          /\ List.length (data chart) = count per)
    /\ (forall (host : JsHost) (inp : Inputs) (sym : string) (w : World),
        exists chart w',
          generateMockChartData inp (Js.Str sym) (Js.Str "1W") w = (Returned chart, w')
          /\ map date (data chart)
             = map (fun i => let now := clock inp (clockPos w) in
                             toLocaleDateString (setDate now (getDate now - i)))
                   [7; 6; 5; 4; 3; 2; 1; 0]%Z).
Proof.
  exists (fun per => S (points_of (Js.Str per))). split; [reflexivity|]. split.
  - intros host inp sym per w.
    destruct (generateMockChartData_spec inp sym (Js.Str per) w)
      as (chart & w' & p0 & pn & E & _ & _ & _ & Hl & _).
    exists chart, w'. split; assumption.
  - intros host inp sym w.
    destruct (generateMockChartData_spec inp sym (Js.Str "1W") w)
      as (chart & w' & p0 & pn & E & _ & _ & _ & _ & _ & _ & _ & Hd).
    exists chart, w'. split; [exact E | exact Hd].
Qed.

(** ** The claims on the sample runs *)

(** A week of "btc" on the sample host: 8 daily points, the last one
    above the first. *)
Example week_chart_of_btc :
  match fst (generateMockChartData (host := Sample.host) (Sample.inputs [])
               (Js.Str "btc") (Js.Str "1W") Sample.ready) with
  | Returned chart =>
      symbol chart = "BTC"%string
      /\ map date (data chart)
         = ["11/7/2023"; "11/8/2023"; "11/9/2023"; "11/10/2023";
            "11/11/2023"; "11/12/2023"; "11/13/2023"; "11/14/2023"]%string
      /\ map (fun p => Sample.shortest2 (price p)) (data chart)
         = ["60.98"; "60.63"; "61.19"; "61.44"; "61.36"; "60.97"; "61.48"; "61.68"]%string
      /\ map (fun p => Sample.shortest2 (volume p)) (data chart)
         = ["9500"; "6900"; "4300"; "1700"; "9100"; "6500"; "3900"; "1300"]%string
      /\ trend chart = up
  | Thrown _ => False
  end.
Proof. vm_compute. repeat split. Qed.

(** A turn with a chart on the sample host. *)
Example chart_turn_of_btc :
  fst (sendMessage (host := Sample.host) (Sample.inputs Runs.chart_script)
         "show btc" Sample.ready)
  = Returned {| result_text := "Here is the chart."; result_sources := [] |}
  /\ List.length (charted (events (snd (sendMessage (host := Sample.host)
                                          (Sample.inputs Runs.chart_script)
                                          "show btc" Sample.ready)))) = 1
  /\ submitted (events (snd (sendMessage (host := Sample.host)
                               (Sample.inputs Runs.chart_script)
                               "show btc" Sample.ready)))
     = [UserMessage "show btc";
        ToolResponses [ {| id := "c3"; name := "getStockChart";
                           response_result :=
                             "Chart generated for btc. Current price is 61.56." |} ]].
Proof. vm_compute. repeat split. Qed.

(** C1, as stated, fails: the request for the undeclared tool [getWeather]
    gets no response at all, nothing is submitted to the model for it, and
    the turn ends with an empty text. *)
Lemma unknown_tool_gets_no_result :
  fst (handle_call (host := Sample.host) (Sample.inputs Runs.weather_script)
         Runs.weather_call [] Sample.ready) = Returned []
  /\ fst (sendMessage (host := Sample.host) (Sample.inputs Runs.weather_script)
            "weather?" Sample.ready)
     = Returned {| result_text := ""; result_sources := [] |}
  /\ events (snd (sendMessage (host := Sample.host) (Sample.inputs Runs.weather_script)
                    "weather?" Sample.ready))
     = [Send (UserMessage "weather?")].
Proof. vm_compute. repeat split. Qed.

(** The request for [getWeather] in front of a price request. *)
Lemma unknown_tool_skipped_witness :
  ~ In (call_name Runs.weather_call) toolNames
  /\ call_args Runs.weather_call = Some [("symbol"%string, Js.Str "AAPL")]
  /\ handle_call (host := Sample.host) (Sample.inputs Runs.weather_script)
       Runs.weather_call [] Runs.started = (Returned [], Runs.started)
  /\ on_chunk (host := Sample.host) (Sample.inputs Runs.weather_script)
       {| text := None; groundingChunks := None;
          functionCalls := Some [Runs.weather_call; Runs.price_call] |}
       (""%string, []) Runs.started
     = on_chunk (host := Sample.host) (Sample.inputs Runs.weather_script)
         {| text := None; groundingChunks := None;
            functionCalls := Some [Runs.price_call] |}
         (""%string, []) Runs.started.
Proof.
  assert (H : ~ In (call_name Runs.weather_call) toolNames).
  { simpl. intros [E | [E | []]]; discriminate E. }
  split; [exact H|]. split; [reflexivity|].
  exact (@unknown_tool_skipped Sample.host (Sample.inputs Runs.weather_script)
           Runs.weather_call [("symbol"%string, Js.Str "AAPL")] [] Runs.started
           None None [] [Runs.price_call] (""%string, []) H eq_refl).
Defined.

(** C2, as stated, fails: a batch of two requests, the first for an
    undeclared tool, yields one response, and that single response is what is
    submitted. *)
Lemma mixed_batch_loses_a_result :
  fst (for_of (handle_call (host := Sample.host) (Sample.inputs Runs.mixed_script))
         [Runs.weather_call; Runs.price_call] [] Sample.ready)
  = Returned [ {| id := "c2"; name := "getStockPrice";
                  response_result := "The current price of ETH is $120.00." |} ]
  /\ submitted (events (snd (sendMessage (host := Sample.host)
                               (Sample.inputs Runs.mixed_script) "eth?" Sample.ready)))
     = [UserMessage "eth?";
        ToolResponses [ {| id := "c2"; name := "getStockPrice";
                           response_result := "The current price of ETH is $120.00." |} ]].
Proof. vm_compute. split; reflexivity. Qed.

(** The batch of [getWeather] and a price request, on an open session. *)
Lemma tool_results_correlate_witness :
  first_failure (calls_of (Sample.ask [Runs.weather_call; Runs.price_call])) = None
  /\ exists chat,
       chatSession (this Runs.started) = Some chat
       /\ exists evs rs,
            events (snd (on_chunk (host := Sample.host) (Sample.inputs Runs.mixed_script)
                           (Sample.ask [Runs.weather_call; Runs.price_call])
                           (""%string, []) Runs.started))
            = events Runs.started ++ evs
            /\ map id rs = map call_id (filter known [Runs.weather_call; Runs.price_call])
            /\ map name rs
               = map call_name (filter known [Runs.weather_call; Runs.price_call])
            /\ submitted evs = match rs with
                               | [] => []
                               | _ :: _ => [ToolResponses rs]
                               end.
Proof.
  split; [reflexivity|].
  eexists. split; [reflexivity|].
  exact (@tool_results_correlate Sample.host (Sample.inputs Runs.mixed_script)
           (Sample.ask [Runs.weather_call; Runs.price_call]) (""%string, [])
           Runs.started _ eq_refl eq_refl).
Defined.



(** A turn whose text comes from both streams. *)
Lemma fullText_is_concatenation_witness :
  exists r w',
    sendMessage (host := Sample.host) (Sample.inputs Runs.price_script)
      "eth?" Sample.ready = (Returned r, w')
    /\ result_text r = "Let me check. ETH trades at $120."%string
    /\ exists evs,
         events w' = events Sample.ready ++ evs
         /\ result_text r = join (delivered evs).
Proof.
  eexists _, _.
  split; [vm_compute; reflexivity|].
  split; [reflexivity|].
  apply (fullText_is_concatenation (host := Sample.host) (Sample.inputs Runs.price_script)
           "eth?" Sample.ready).
  vm_compute. reflexivity.
Defined.


(** C6, as stated, fails: with no API key in the environment the service is
    constructed with the empty string as key, the session is created, and
    the first message is submitted to the model; the failure the caller gets
    is the model's rejection of that message. *)
Lemma missing_api_key_session_created :
  constructor None Sample.boot
  = (Returned tt,
     {| this := {| ai := ""; chatSession := None; apiKey := "" |};
        events := [];
        console := ["API_KEY is missing from environment variables"%string];
        randomPos := 0;
        clockPos := 0 |})
  /\ fst (initializeChat (snd (constructor None Sample.boot))) = Returned tt
  /\ chatSession (this (snd (initializeChat (snd (constructor None Sample.boot)))))
     = Some {| chat_model := "gemini-2.5-flash";
               chat_instruction := systemInstruction;
               chat_tools := [getStockChartFunction; getStockPriceFunction];
               chat_sent := [] |}
  /\ fst ((constructor None ;;;
           sendMessage (host := Sample.host) (Sample.inputs Runs.rejecting_script) "hi")
            Sample.boot)
     = Thrown (Js.ModelError "API key not valid")
  /\ events (snd ((constructor None ;;;
                   sendMessage (host := Sample.host)
                     (Sample.inputs Runs.rejecting_script) "hi") Sample.boot))
     = [Send (UserMessage "hi")].
Proof. vm_compute. repeat split. Qed.

(** The model rejects the first message of a service built without a key. *)
Lemma missing_api_key_not_fatal_witness :
  model (Sample.inputs Runs.rejecting_script) [UserMessage "hi"]
  = Rejected "API key not valid"
  /\ exists w1 w2 w3 chat,
       constructor None Sample.boot = (Returned tt, w1)
       /\ console w1 = console Sample.boot
                       ++ ["API_KEY is missing from environment variables"%string]
       /\ apiKey (this w1) = ""%string
       /\ chatSession (this w1) = None
       /\ initializeChat w1 = (Returned tt, w2)
       /\ chatSession (this w2) = Some chat
       /\ sendMessage (host := Sample.host) (Sample.inputs Runs.rejecting_script) "hi" w1
          = (Thrown (Js.ModelError "API key not valid"), w3)
       /\ events w3 = events Sample.boot ++ [Send (UserMessage "hi")].
Proof.
  split; [reflexivity|].
  exact (missing_api_key_not_fatal (host := Sample.host)
           (Sample.inputs Runs.rejecting_script) "hi" Sample.boot eq_refl).
Defined.

(** C7 at its failing input: a price request without [args], in a batch
    after a chart request.  The turn throws a [TypeError]; the chart has
    been called back, nothing was submitted for the batch, and the service
    has logged the error. *)
Example no_args_turn_aborts :
  known Runs.no_args_call = true
  /\ call_args Runs.no_args_call = None
  /\ fst (sendMessage (host := Sample.host) (Sample.inputs Runs.no_args_script)
            "eth?" Sample.ready)
     = Thrown (Js.TypeError "Cannot read properties of undefined (reading 'symbol')")
  /\ delivered (events (snd (sendMessage (host := Sample.host)
                               (Sample.inputs Runs.no_args_script) "eth?" Sample.ready)))
     = ["Checking. "%string]
  /\ map symbol (charted (events (snd (sendMessage (host := Sample.host)
                                         (Sample.inputs Runs.no_args_script)
                                         "eth?" Sample.ready))))
     = ["BTC"%string]
  /\ submitted (events (snd (sendMessage (host := Sample.host)
                               (Sample.inputs Runs.no_args_script) "eth?" Sample.ready)))
     = [UserMessage "eth?"]
  /\ console (snd (sendMessage (host := Sample.host)
                     (Sample.inputs Runs.no_args_script) "eth?" Sample.ready))
     = ["Gemini interaction error: Cannot read properties of undefined (reading 'symbol')"%string].
Proof. vm_compute. repeat split. Qed.

(** A chart request whose symbol is a number: the points are made (the
    tapes are read), then [toUpperCase] throws, and no callback is made. *)
Example numeric_symbol_chart_throws :
  failure_of Runs.numeric_chart_call
  = Some (Js.TypeError "symbol.toUpperCase is not a function")
  /\ fst (handle_call (host := Sample.host) (Sample.inputs Runs.chart_script)
            Runs.numeric_chart_call [] Runs.started)
     = Thrown (Js.TypeError "symbol.toUpperCase is not a function")
  /\ events (snd (handle_call (host := Sample.host) (Sample.inputs Runs.chart_script)
                    Runs.numeric_chart_call [] Runs.started))
     = events Runs.started
  /\ randomPos (snd (handle_call (host := Sample.host) (Sample.inputs Runs.chart_script)
                       Runs.numeric_chart_call [] Runs.started))
     = 63 + randomPos Runs.started.
Proof. vm_compute. repeat split. Qed.

(** A price request without [args], and a chart request whose [args] is
    the empty object. *)
Lemma missing_arguments_defaulted_witness :
  known Runs.no_args_call = true
  /\ call_args Runs.no_args_call = None
  /\ handle_call (host := Sample.host) (Sample.inputs Runs.no_args_script)
       Runs.no_args_call [] Runs.started
     = (Thrown (Js.TypeError "Cannot read properties of undefined (reading 'symbol')"),
        Runs.started)
  /\ known Runs.bare_chart_call = true
  /\ call_args Runs.bare_chart_call = Some []
  /\ call_name Runs.bare_chart_call = "getStockChart"%string
  /\ (exists new w',
        handle_call (host := Sample.host) (Sample.inputs Runs.chart_script)
          Runs.bare_chart_call [] Runs.started = (Returned ([] ++ [new]), w')
        /\ exists chart pn,
             events w' = events Runs.started ++ [OnChart chart]
             /\ symbol chart = "UNKNOWN"%string
             /\ response_result new
                = ("Chart generated for UNKNOWN. Current price is "
                   ++ Number_toString (JsHost := Sample.host) (price pn) ++ ".")%string)
  /\ (exists chart pn w',
        handle_call (host := Sample.host) (Sample.inputs Runs.chart_script)
          Runs.bare_chart_call [] Runs.started
        = (Returned ([] ++ [chart_summary (host := Sample.host) Runs.bare_chart_call pn]), w')
        /\ events w' = events Runs.started ++ [OnChart chart]
        /\ period chart = Js.Str "1M"
        /\ List.length (data chart) = 31).
Proof.
  split; [reflexivity|]. split; [reflexivity|].
  split.
  { exact (proj1 (@missing_arguments_defaulted Sample.host
                    (Sample.inputs Runs.no_args_script) Runs.no_args_call []
                    Runs.started eq_refl) eq_refl). }
  split; [reflexivity|]. split; [reflexivity|]. split; [reflexivity|].
  destruct (@missing_arguments_defaulted Sample.host (Sample.inputs Runs.chart_script)
              Runs.bare_chart_call [] Runs.started eq_refl) as (_ & B & C).
  split.
  - destruct (B [] eq_refl eq_refl) as (new & w' & E & _ & _ & _ & Hc).
    exists new, w'. split; [exact E | exact (Hc eq_refl)].
  - exact (C [] eq_refl eq_refl eq_refl eq_refl).
Defined.

(** * Lemmas for the further properties *)

Lemma push_source_cited c acc : push_source c acc = acc ++ cited c.
Proof.
  unfold push_source, cited, Js.truthy.
  destruct (web_uri c) as [u|]; [|now rewrite app_nil_r].
  destruct (web_title c) as [t|]; [|now rewrite app_nil_r].
  destruct (u =? "")%string, (t =? "")%string; simpl;
    try reflexivity; now rewrite app_nil_r.
Qed.

Lemma fold_sources gcs :
  forall acc,
    fold_left (fun acc c => push_source c acc) gcs acc = acc ++ flat_map cited gcs.
Proof.
  induction gcs as [|c gcs IH]; intros acc; simpl.
  - now rewrite app_nil_r.
  - now rewrite IH, push_source_cited, <- app_assoc.
Qed.

Lemma sources_stage chunk sources :
  match groundingChunks chunk with
  | Some gcs => fold_left (fun acc c => push_source c acc) gcs sources
  | None => sources
  end = sources ++ chunk_sources chunk.
Proof.
  unfold chunk_sources. destruct (groundingChunks chunk) as [gcs|].
  - apply fold_sources.
  - now rewrite app_nil_r.
Qed.

Lemma same_session_refl c : same_session c c.
Proof. repeat split. Qed.

Lemma same_session_trans c1 c2 c3 :
  same_session c1 c2 -> same_session c2 c3 -> same_session c1 c3.
Proof.
  intros (A1 & A2 & A3) (B1 & B2 & B3). repeat split; congruence.
Qed.

Lemma session_extends_quiet w w' evs chat :
  chatSession (this w) = Some chat ->
  this w' = this w ->
  console w' = console w ->
  events w' = events w ++ evs ->
  submitted evs = [] ->
  session_extends w w' evs.
Proof.
  intros Hc T C V S.
  split; [exact V|]. split; [exact C|].
  rewrite T. split; [reflexivity|]. split; [reflexivity|].
  exists chat, chat. rewrite S, app_nil_r.
  repeat split; assumption.
Qed.

Lemma session_extends_trans w1 w2 w3 e1 e2 :
  session_extends w1 w2 e1 -> session_extends w2 w3 e2 ->
  session_extends w1 w3 (e1 ++ e2).
Proof.
  intros (V1 & C1 & A1 & K1 & c1 & c1' & H1 & H1' & S1 & M1)
         (V2 & C2 & A2 & K2 & c2 & c2' & H2 & H2' & S2 & M2).
  assert (c2 = c1') by congruence. subst c2.
  split; [now rewrite V2, V1, app_assoc|].
  split; [congruence|]. split; [congruence|]. split; [congruence|].
  exists c1, c2'.
  split; [assumption|]. split; [assumption|].
  split; [exact (same_session_trans S1 S2)|].
  now rewrite M2, M1, submitted_app, app_assoc.
Qed.

Section ServiceFrame.

Context {host : JsHost}.
Variable inp : Inputs.

Lemma sendMessageStream_frame message w chat :
  chatSession (this w) = Some chat ->
  exists w',
    sendMessageStream inp message w = (answer inp (chat_sent chat ++ [message]), w')
    /\ session_extends w w' [Send message].
Proof.
  intros Hc. unfold sendMessageStream, answer. rewrite Hc.
  destruct (model inp (chat_sent chat ++ [message])) as [e|chunks failure];
    eexists; (split; [reflexivity|]);
    (split; [reflexivity|]); (split; [reflexivity|]);
    (split; [reflexivity|]); (split; [reflexivity|]);
    eexists chat, _; (split; [exact Hc|]); (split; [reflexivity|]);
    (split; [repeat split | reflexivity]).
Qed.

(** A fragment all of whose requests are passed over: its text is
    delivered, its citations are collected, and nothing else happens. *)
Lemma on_chunk_quiet chunk full sources w :
  forallb skipped (calls_of chunk) = true ->
  exists w',
    on_chunk inp chunk (full, sources) w
      = (Returned ((full ++ join (chunk_text chunk))%string,
                   sources ++ chunk_sources chunk), w')
    /\ this w' = this w
    /\ console w' = console w
    /\ events w' = events w ++ map OnChunk (chunk_text chunk).
Proof.
  intros Hk. unfold on_chunk. unfold bind at 1.
  destruct (text_stage chunk full w) as (w1 & E1 & T1 & C1 & V1).
  rewrite E1. clear E1. rewrite sources_stage.
  exists w1.
  assert (Skip : forall calls rs w0,
            forallb skipped calls = true ->
            for_of (handle_call inp) calls rs w0 = (Returned rs, w0)).
  { induction calls as [|c calls IH]; intros rs w0 Ex; [reflexivity|].
    cbn [forallb] in Ex. apply andb_true_iff in Ex as [Ec Ex].
    cbn [for_of]. unfold bind.
    assert (Hc : handle_call inp c rs w0 = (Returned rs, w0)).
    { unfold handle_call. unfold skipped, known, has_args in Ec.
      apply andb_true_iff in Ec as [Ec Ea]. apply negb_true_iff in Ec.
      apply orb_false_iff in Ec as [Ec1 Ec2].
      destruct (call_args c); [|discriminate Ea]. now rewrite Ec1, Ec2. }
    rewrite Hc. now apply IH. }
  unfold calls_of in Hk.
  destruct (functionCalls chunk) as [[|call calls]|].
  - repeat split; assumption.
  - unfold bind. rewrite (Skip (call :: calls) [] w1 Hk). cbn.
    repeat split; assumption.
  - repeat split; assumption.
Qed.

Lemma on_chunk_frame chunk full sources w chat :
  chatSession (this w) = Some chat ->
  exists out w' evs,
    on_chunk inp chunk (full, sources) w = (out, w')
    /\ session_extends w w' evs
    /\ ((exists full', out = Returned (full', sources ++ chunk_sources chunk))
        \/ (exists e, out = Thrown e)).
Proof.
  intros Hc. unfold on_chunk. unfold bind at 1.
  destruct (text_stage chunk full w) as (w1 & E1 & T1 & C1 & V1).
  rewrite E1. clear E1. rewrite sources_stage.
  assert (X1 : session_extends w w1 (map OnChunk (chunk_text chunk))).
  { apply (@session_extends_quiet w w1 _ chat Hc T1 C1 V1), submitted_OnChunk. }
  assert (Hc1 : chatSession (this w1) = Some chat) by now rewrite T1.
  destruct (functionCalls chunk) as [[|call calls]|].
  - eexists _, w1, _. split; [reflexivity|]. split; [exact X1|]. left. eauto.
  - unfold bind at 1.
    destruct (for_of_handle_call_spec inp (call :: calls) [] w1)
      as (new & cevs & w2 & E2 & Hb & T2 & C2 & V2).
    rewrite E2. clear E2. cbn [app].
    assert (X2 : session_extends w1 w2 cevs).
    { apply (@session_extends_quiet w1 w2 _ chat Hc1 T2 C2 V2).
      rewrite (batch_events Hb). apply submitted_OnChart. }
    pose proof (session_extends_trans X1 X2) as X12.
    destruct (first_failure (call :: calls)) as [e|].
    { eexists _, w2, _. split; [reflexivity|]. split; [exact X12|]. right. eauto. }
    destruct new as [|r new].
    + cbn [List.length Nat.ltb Nat.leb]. unfold ret.
      eexists _, w2, _. split; [reflexivity|]. split; [exact X12|]. left. eauto.
    + cbn [List.length Nat.ltb Nat.leb]. unfold bind at 1.
      assert (Hc2 : chatSession (this w2) = Some chat) by now rewrite T2.
      destruct (@sendMessageStream_frame (ToolResponses (r :: new)) w2 chat Hc2)
        as (w3 & E3 & X3).
      rewrite E3. clear E3.
      pose proof (session_extends_trans X12 X3) as X123.
      unfold answer.
      destruct (model inp (chat_sent chat ++ [ToolResponses (r :: new)]))
        as [e|resumed failure].
      * eexists _, w3, _. split; [reflexivity|]. split; [exact X123|]. right. eauto.
      * cbn [fst snd]. unfold bind at 1.
        destruct (tool_stream_spec resumed failure
                    (full ++ join (chunk_text chunk))%string w3)
          as (w4 & E4 & T4 & C4 & V4 & _).
        rewrite E4. clear E4.
        destruct X123 as (_ & _ & _ & _ & c0 & c3 & H0 & H3 & _).
        assert (X4 : session_extends w3 w4
                       (map OnToolChunk (flat_map chunk_text resumed))).
        { apply (@session_extends_quiet w3 w4 _ c3 H3 T4 C4 V4), submitted_OnToolChunk. }
        pose proof (session_extends_trans
                      (session_extends_trans X12 X3) X4) as X.
        destruct failure as [e|].
        -- eexists _, w4, _. split; [reflexivity|]. split; [exact X|]. right. eauto.
        -- unfold ret. eexists _, w4, _. split; [reflexivity|].
           split; [exact X|]. left. eauto.
  - eexists _, w1, _. split; [reflexivity|]. split; [exact X1|]. left. eauto.
Qed.

Lemma first_stream_frame chunks failure :
  forall full sources w chat,
  chatSession (this w) = Some chat ->
  exists out w' evs,
    for_await (on_chunk inp) chunks failure (full, sources) w = (out, w')
    /\ session_extends w w' evs
    /\ ((exists full', out = Returned (full', sources ++ flat_map chunk_sources chunks))
        \/ (exists e, out = Thrown e)).
Proof.
  induction chunks as [|chunk chunks IH]; intros full sources w chat Hc.
  - cbn [for_await flat_map]. rewrite app_nil_r.
    assert (X : session_extends w w []).
    { apply (@session_extends_quiet w w [] chat Hc eq_refl eq_refl); [|reflexivity].
      now rewrite app_nil_r. }
    destruct failure as [e|].
    + eexists _, w, []. split; [reflexivity|]. split; [exact X|]. right. eauto.
    + eexists _, w, []. split; [reflexivity|]. split; [exact X|]. left. eauto.
  - cbn [for_await flat_map]. unfold bind at 1.
    destruct (@on_chunk_frame chunk full sources w chat Hc)
      as (out1 & w1 & evs1 & E1 & X1 & [[full1 ->] | [e ->]]).
    + rewrite E1.
      destruct X1 as (V1 & C1 & A1 & K1 & c0 & c1 & H0 & H1 & S1 & M1).
      destruct (IH full1 (sources ++ chunk_sources chunk) w1 c1 H1)
        as (out & w' & evs & E & X & F).
      exists out, w', (evs1 ++ evs). split; [exact E|].
      split.
      * apply (@session_extends_trans w w1 w' evs1 evs); [|exact X].
        split; [exact V1|]. split; [exact C1|]. split; [exact A1|].
        split; [exact K1|]. exists c0, c1. repeat split; try assumption; apply S1.
      * rewrite <- app_assoc in F. exact F.
    + rewrite E1. exists (Thrown e), w1, evs1.
      split; [reflexivity|]. split; [exact X1|]. right. eauto.
Qed.

(** Everything a turn leaves behind, whatever its outcome. *)
Lemma sendMessage_frame message w :
  exists out w' evs chat',
    sendMessage inp message w = (out, w')
    /\ events w' = events w ++ evs
    /\ ai (this w') = ai (this w)
    /\ apiKey (this w') = apiKey (this w)
    /\ chatSession (this w') = Some chat'
    /\ chat_sent chat' = history w ++ submitted evs
    /\ (forall chat, chatSession (this w) = Some chat -> same_session chat chat')
    /\ (chatSession (this w) = None ->
        chat_model chat' = "gemini-2.5-flash"%string
        /\ chat_instruction chat' = systemInstruction
        /\ chat_tools chat' = [getStockChartFunction; getStockPriceFunction])
    /\ ((exists r,
           out = Returned r
           /\ console w' = console w
           /\ forall chunks failure,
                model inp (history w ++ [UserMessage message]) = Stream chunks failure ->
                result_sources r = flat_map chunk_sources chunks)
        \/ (exists e,
              out = Thrown e
              /\ console w' = console w
                              ++ [("Gemini interaction error: " ++ Js.message e)%string])).
Proof.
  unfold sendMessage. unfold bind at 1.
  assert (Init : exists w0 chat,
            (match chatSession (this w) with
             | Some _ => (Returned tt, w)
             | None => initializeChat w
             end) = (Returned tt, w0)
            /\ chatSession (this w0) = Some chat
            /\ chat_sent chat = history w
            /\ events w0 = events w
            /\ console w0 = console w
            /\ ai (this w0) = ai (this w)
            /\ apiKey (this w0) = apiKey (this w)
            /\ (forall c, chatSession (this w) = Some c -> c = chat)
            /\ (chatSession (this w) = None ->
                chat_model chat = "gemini-2.5-flash"%string
                /\ chat_instruction chat = systemInstruction
                /\ chat_tools chat = [getStockChartFunction; getStockPriceFunction])).
  { unfold history. destruct (chatSession (this w)) as [chat|] eqn:Hc.
    - exists w, chat. repeat split; try assumption; congruence.
    - eexists _, _. unfold initializeChat, modify.
      split; [reflexivity|]. simpl. repeat split. intros c Hn. discriminate Hn. }
  destruct Init as (w0 & chat & E0 & Hc0 & Hh & V0 & C0 & A0 & K0 & Hs & Hn).
  rewrite E0. clear E0.
  unfold try_catch. unfold bind at 1.
  destruct (@sendMessageStream_frame (UserMessage message) w0 chat Hc0) as (w1 & E1 & X1).
  rewrite E1. clear E1. rewrite Hh. unfold answer.
  assert (Wrap : forall w2 evs,
            session_extends w0 w2 evs ->
            exists chat',
              events w2 = events w ++ evs
              /\ ai (this w2) = ai (this w)
              /\ apiKey (this w2) = apiKey (this w)
              /\ chatSession (this w2) = Some chat'
              /\ chat_sent chat' = history w ++ submitted evs
              /\ (forall c, chatSession (this w) = Some c -> same_session c chat')
              /\ (chatSession (this w) = None ->
                  chat_model chat' = "gemini-2.5-flash"%string
                  /\ chat_instruction chat' = systemInstruction
                  /\ chat_tools chat' = [getStockChartFunction; getStockPriceFunction])
              /\ console w2 = console w).
  { intros w2 evs (V & C & A & K & c & c' & H & H' & (S1 & S2 & S3) & M).
    assert (c = chat) by congruence. subst c.
    exists c'. split; [congruence|]. split; [congruence|]. split; [congruence|].
    split; [assumption|]. split; [congruence|].
    split.
    - intros c0 H0. rewrite (Hs c0 H0). repeat split; assumption.
    - split; [|congruence].
      intros Hnone. destruct (Hn Hnone) as (N1 & N2 & N3).
      repeat split; congruence. }
  destruct (model inp (history w ++ [UserMessage message]))
    as [e|chunks failure] eqn:Em.
  - destruct (Wrap w1 _ X1) as (chat' & W1 & W2 & W3 & W4 & W5 & W6 & W7 & W8).
    eexists _, _, [Send (UserMessage message)], chat'.
    unfold bind, modify, throw.
    split; [reflexivity|]. cbn [log this events console].
    split; [exact W1|]. split; [exact W2|]. split; [exact W3|].
    split; [exact W4|]. split; [exact W5|]. split; [exact W6|]. split; [exact W7|].
    right. exists (Js.ModelError e). split; [reflexivity | now rewrite W8].
  - cbn [fst snd]. unfold bind at 1.
    destruct X1 as (V1 & C1 & A1 & K1 & c0 & c1 & H0 & H1 & S1 & M1).
    destruct (@first_stream_frame chunks failure ""%string [] w1 c1 H1)
      as (out & w2 & evs & E & X & F).
    rewrite E. clear E.
    assert (X01 : session_extends w0 w1 [Send (UserMessage message)]).
    { split; [exact V1|]. split; [exact C1|]. split; [exact A1|].
      split; [exact K1|]. exists c0, c1. repeat split; try assumption; apply S1. }
    destruct (Wrap w2 _ (session_extends_trans X01 X))
      as (chat' & W1 & W2 & W3 & W4 & W5 & W6 & W7 & W8).
    destruct F as [[full' ->] | [e ->]].
    + eexists _, w2, _, chat'. unfold ret.
      split; [reflexivity|].
      split; [exact W1|]. split; [exact W2|]. split; [exact W3|].
      split; [exact W4|]. split; [exact W5|]. split; [exact W6|]. split; [exact W7|].
      left. eexists. split; [reflexivity|]. split; [exact W8|].
      intros chunks' failure' [= <- <-]. reflexivity.
    + eexists _, _, _, chat'. unfold bind, modify, throw.
      split; [reflexivity|]. cbn [log this events console].
      split; [exact W1|]. split; [exact W2|]. split; [exact W3|].
      split; [exact W4|]. split; [exact W5|]. split; [exact W6|]. split; [exact W7|].
      right. exists e. split; [reflexivity | now rewrite W8].
Qed.

End ServiceFrame.


Section GeneratorTapes.

Context {host : JsHost}.
Variable inp : Inputs.

Lemma chart_loop_tapes period now i :
  forall cp data0 w,
  exists out w',
    chart_loop inp period now i cp data0 w = (out, w')
    /\ randomPos w' = randomPos w + 2 * S i
    /\ clockPos w' = clockPos w.
Proof.
  induction i as [|j IH]; intros cp data0 w.
  - eexists _, _. split; [reflexivity|]. cbn. split; [lia | reflexivity].
  - cbn [chart_loop]. unfold bind at 1.
    destruct (chart_step_spec inp period now (S j) cp data0 w) as (p & w1 & E1 & _).
    assert (P : randomPos w1 = S (S (randomPos w)) /\ clockPos w1 = clockPos w).
    { revert E1. unfold chart_step, bind, Math_random, ret. cbn.
      intros [= _ <-]. split; reflexivity. }
    rewrite E1. cbn [fst snd].
    match goal with
    | |- context [chart_loop inp period now j ?c ?d w1] =>
        destruct (IH c d w1) as (out & w' & E & R & C)
    end.
    exists out, w'. split; [exact E|].
    rewrite R, C. destruct P as [-> ->]. split; [lia | reflexivity].
Qed.

Lemma generateMockChartData_tapes sym per w :
  exists out w',
    generateMockChartData inp sym per w = (out, w')
    /\ randomPos w' = randomPos w + 2 * points_of per + 3
    /\ clockPos w' = S (clockPos w).
Proof.
  unfold generateMockChartData.
  unfold bind at 1. unfold Date_new at 1.
  unfold bind at 1. unfold Math_random at 1.
  unfold bind at 1.
  match goal with
  | |- context [chart_loop inp per ?now ?n ?c [] ?w1] =>
      destruct (chart_loop_tapes per now n c [] w1) as (out & w2 & E & R & C);
      change n with (points_of per) in *
  end.
  rewrite E. cbn [randomPos clockPos] in R, C.
  destruct out as [st|e].
  - unfold bind, price_of.
    destruct (nth_error (snd st) 0);
      [destruct (nth_error (snd st) (List.length (snd st) - 1));
       [destruct sym|]|];
      eexists _, w2; (split; [reflexivity|]); (split; [lia | exact C]).
  - eexists _, w2. split; [reflexivity|]. split; [lia | exact C].
Qed.

End GeneratorTapes.

Lemma nth_error_countdown n :
  forall k, k <= n -> nth_error (countdown n) k = Some (n - k).
Proof.
  induction n as [|m IH]; intros k Hk.
  - assert (k = 0) by lia. subst k. reflexivity.
  - destruct k as [|k]; [reflexivity|].
    cbn [countdown nth_error]. rewrite IH by lia. reflexivity.
Qed.

Lemma first_failure_In chunks chunk e :
  In chunk chunks ->
  first_failure (calls_of chunk) = Some e ->
  forallb (fun c => match first_failure (calls_of c) with
                    | None => true
                    | Some _ => false
                    end) chunks = false.
Proof.
  intros I F. induction chunks as [|c chunks IH]; [contradiction|].
  cbn [forallb]. destruct I as [-> | I].
  - now rewrite F.
  - rewrite (IH I). apply andb_false_r.
Qed.

(** * Further properties of the service *)

Section ServiceProperties.

Context {host : JsHost}.
Variable inp : Inputs.

(** X1.  The sources of a turn that returns are the citations of the
    fragments of the first stream that have both a [uri] and a [title], in
    order and without removing repetitions; citations carried by resumed
    streams are not collected. *)
Theorem sources_come_from_first_stream message w r w' chunks failure :
  sendMessage inp message w = (Returned r, w') ->
  model inp (history w ++ [UserMessage message]) = Stream chunks failure ->
  result_sources r = flat_map chunk_sources chunks.
Proof.
  intros Hrun Hm.
  destruct (sendMessage_frame inp message w)
    as (out & w2 & evs & chat' & E & _ & _ & _ & _ & _ & _ & _ & F).
  rewrite Hrun in E. injection E as <- <-.
  destruct F as [(r' & [= <-] & _ & Hs) | (e & He & _)]; [|discriminate He].
  exact (Hs chunks failure Hm).
Qed.

(** X2.  A turn either returns, and then logs nothing, or throws, and then
    the service logs exactly one line, which carries the error.  The error
    is one that the model boundary raised (a rejected message or a stream
    that breaks), or it is the [TypeError] of a request of the first stream
    that the executor cannot run: a request without [args], or a chart
    request whose symbol is not a string.  So a turn whose first stream
    holds no such request fails only through the model. *)
Theorem turn_failures message w :
  (exists r,
     fst (sendMessage inp message w) = Returned r
     /\ console (snd (sendMessage inp message w)) = console w)
  \/ (exists e,
        fst (sendMessage inp message w) = Thrown e
        /\ console (snd (sendMessage inp message w))
           = console w ++ [("Gemini interaction error: " ++ Js.message e)%string]
        /\ ((exists msg, e = Js.ModelError msg)
            \/ (exists chunks failure chunk,
                  model inp (history w ++ [UserMessage message]) = Stream chunks failure
                  /\ In chunk chunks
                  /\ first_failure (calls_of chunk) = Some e))
        /\ (forall chunks failure,
              model inp (history w ++ [UserMessage message]) = Stream chunks failure ->
              forallb (fun c => match first_failure (calls_of c) with
                                | None => true
                                | Some _ => false
                                end) chunks = true ->
              exists msg, e = Js.ModelError msg)).
Proof.
  destruct (sendMessage_frame inp message w)
    as (out & w2 & evs & chat' & E & _ & _ & _ & _ & _ & _ & _ & F).
  destruct (sendMessage_spec inp message w) as (out' & w3 & evs' & E' & _ & Hr & Hs).
  rewrite E in E'. injection E' as <- <-.
  rewrite E. cbn [fst snd].
  destruct F as [(r & -> & C & _) | (e & -> & C)]; [left; eauto | right].
  exists e. split; [reflexivity|]. split; [exact C|].
  assert (K : (exists msg, e = Js.ModelError msg)
              \/ (exists chunks failure chunk,
                    model inp (history w ++ [UserMessage message]) = Stream chunks failure
                    /\ In chunk chunks
                    /\ first_failure (calls_of chunk) = Some e)).
  { destruct (model inp (history w ++ [UserMessage message]))
      as [msg|chunks failure] eqn:Em.
    - destruct (Hr msg eq_refl) as [[= ->] _]. left. eauto.
    - destruct (Hs chunks failure eq_refl)
        as (done & rest & Ed & [(_ & _ & G) | (e0 & c & rest' & ev1 & ev2 & Ho & Er & _ & A & _)]).
      + left. exact (G e eq_refl).
      + injection Ho as <-. right. exists chunks, failure, c.
        split; [reflexivity|]. split; [|exact (proj1 A)].
        rewrite Ed, Er. apply in_or_app. right. now left. }
  split; [exact K|].
  intros chunks failure Hm Hall.
  destruct K as [K | (chunks' & failure' & c & Hm' & I & Fc)]; [exact K|].
  rewrite Hm in Hm'. injection Hm' as <- <-.
  rewrite (first_failure_In chunks c I Fc) in Hall. discriminate Hall.
Qed.

(** X3.  A turn whose first stream carries only requests that the executor
    passes over (they have an [args] object and a name it does not dispatch
    on) delivers every non-empty text of the stream in order and submits
    nothing but the user's message; it returns the concatenated text and the
    citations when the stream ends normally, and when the stream breaks it
    throws the stream's error after the texts have been delivered. *)
Theorem text_only_turn message w chunks failure :
  model inp (history w ++ [UserMessage message]) = Stream chunks failure ->
  forallb (fun chunk => forallb skipped (calls_of chunk)) chunks = true ->
  fst (sendMessage inp message w)
    = match failure with
      | None => Returned {| result_text := join (flat_map chunk_text chunks);
                            result_sources := flat_map chunk_sources chunks |}
      | Some e => Thrown (Js.ModelError e)
      end
  /\ events (snd (sendMessage inp message w))
     = events w ++ Send (UserMessage message) :: map OnChunk (flat_map chunk_text chunks).
Proof.
  intros Hm Hq.
  assert (Quiet : forall cs full sources w0,
            forallb (fun chunk => forallb skipped (calls_of chunk)) cs = true ->
            exists w1,
              for_await (on_chunk inp) cs failure (full, sources) w0
                = (match failure with
                   | None => Returned ((full ++ join (flat_map chunk_text cs))%string,
                                       sources ++ flat_map chunk_sources cs)
                   | Some e => Thrown (Js.ModelError e)
                   end, w1)
              /\ events w1 = events w0 ++ map OnChunk (flat_map chunk_text cs)).
  { induction cs as [|c cs IH]; intros full sources w0 Hcs.
    - exists w0. cbn. rewrite append_empty_r, !app_nil_r.
      destruct failure; split; reflexivity.
    - cbn [forallb] in Hcs. apply andb_true_iff in Hcs as [Hc Hcs].
      destruct (on_chunk_quiet inp c full sources w0 Hc) as (w1 & E1 & _ & _ & V1).
      destruct (IH (full ++ join (chunk_text c))%string (sources ++ chunk_sources c)
                  w1 Hcs) as (w2 & E2 & V2).
      exists w2. cbn [for_await flat_map]. unfold bind. rewrite E1, E2.
      rewrite join_app, append_assoc, map_app, <- !app_assoc, V2, V1, <- app_assoc.
      split; reflexivity. }
  unfold sendMessage, bind, try_catch.
  assert (Step : forall w0 chat,
            chatSession (this w0) = Some chat ->
            chat_sent chat = history w ->
            events w0 = events w ->
            exists w1,
              sendMessageStream inp (UserMessage message) w0
                = (Returned (chunks, failure), w1)
              /\ events w1 = events w ++ [Send (UserMessage message)]).
  { intros w0 chat Hc Hh V0. unfold sendMessageStream. rewrite Hc, Hh, Hm.
    eexists. split; [reflexivity|]. cbn. now rewrite V0. }
  assert (Init : exists w0 chat,
            (match chatSession (this w) with
             | Some _ => (Returned tt, w)
             | None => initializeChat w
             end) = (Returned tt, w0)
            /\ chatSession (this w0) = Some chat
            /\ chat_sent chat = history w
            /\ events w0 = events w).
  { unfold history. destruct (chatSession (this w)) as [chat|] eqn:Hc.
    - exists w, chat. repeat split. assumption.
    - eexists _, _. unfold initializeChat, modify.
      split; [reflexivity|]. simpl. repeat split. }
  destruct Init as (w0 & chat & E0 & Hc0 & Hh & V0). rewrite E0.
  destruct (Step w0 chat Hc0 Hh V0) as (w1 & E1 & V1). rewrite E1. cbn [fst snd].
  destruct (Quiet chunks ""%string [] w1 Hq) as (w2 & E2 & V2). rewrite E2.
  destruct failure as [e|]; cbn; rewrite V2, V1, <- app_assoc; split; reflexivity.
Qed.

(** X4.  A turn creates the session only when there is none: after a turn,
    returned or thrown, a session exists; one that was there before the
    turn has kept its model, its instruction and its tools, a new one has
    the declared model, instruction and tools; and the key and the client
    are left alone. *)
Theorem session_created_once message w :
  exists chat',
    chatSession (this (snd (sendMessage inp message w))) = Some chat'
    /\ (forall chat, chatSession (this w) = Some chat -> same_session chat chat')
    /\ (chatSession (this w) = None ->
        chat_model chat' = "gemini-2.5-flash"%string
        /\ chat_instruction chat' = systemInstruction
        /\ chat_tools chat' = [getStockChartFunction; getStockPriceFunction])
    /\ apiKey (this (snd (sendMessage inp message w))) = apiKey (this w)
    /\ ai (this (snd (sendMessage inp message w))) = ai (this w).
Proof.
  destruct (sendMessage_frame inp message w)
    as (out & w2 & evs & chat' & E & V & A & K & Hc & Hs & Hk & Hn & _).
  rewrite E. cbn [snd]. exists chat'.
  split; [exact Hc|]. split; [exact Hk|]. split; [exact Hn|].
  split; [exact K | exact A].
Qed.

(** X5.  The events of one fragment of the first stream come in this order:
    its text if it is non-empty, then one chart callback per [getStockChart]
    request of its batch that is executed, in the order of the requests and
    for the symbol (upper-cased) and the period of each request, then, if
    anything is submitted, the submission followed by the texts of the
    resumed stream.  The requests executed are all those of the batch when
    none throws, and otherwise those before the first one that throws: then
    the fragment ends in that error and nothing is submitted.  Price
    requests and requests that are passed over make no callback. *)
Theorem fragment_events_in_order chunk st w chat :
  chatSession (this w) = Some chat ->
  exists charts tail,
    events (snd (on_chunk inp chunk st w))
      = events w ++ map OnChunk (chunk_text chunk) ++ map OnChart charts ++ tail
    /\ map symbol charts
       = map (fun c => Js.toUpperCase (template (symbol_arg c)))
           (filter is_chart_call (executed (calls_of chunk)))
    /\ map period charts
       = map period_arg (filter is_chart_call (executed (calls_of chunk)))
    /\ match first_failure (calls_of chunk) with
       | Some e => tail = [] /\ fst (on_chunk inp chunk st w) = Thrown e
       | None =>
           executed (calls_of chunk) = calls_of chunk
           /\ (tail = []
               \/ exists rs resumed,
                    tail = Send (ToolResponses rs) :: map OnToolChunk resumed)
       end.
Proof.
  intros Hc. destruct st as [full sources].
  destruct (first_failure (calls_of chunk)) as [e|] eqn:Hff.
  - destruct (on_chunk_abort inp chunk full sources w Hff)
      as (w' & evs & E & (_ & new & cevs & Hb & ->) & V & _).
    rewrite E. cbn [fst snd]. rewrite V.
    exists (charted cevs), []. destruct (batch_charts Hb) as [B1 B2].
    rewrite app_nil_r, <- (batch_events Hb).
    split; [reflexivity|]. split; [exact B1|]. split; [exact B2|].
    split; reflexivity.
  - destruct (on_chunk_spec inp chunk full sources w Hc Hff)
      as (out & w' & evs & chat' & E & Tr & V & _).
    rewrite E. cbn [snd]. rewrite V, (executed_all _ Hff).
    destruct Tr as [Hb | new cevs resumed Hb Hne].
    + exists [], []. destruct (batch_charts Hb) as [B1 B2]. cbn in B1, B2.
      cbn [map app]. rewrite app_nil_r.
      split; [reflexivity|]. split; [exact B1|]. split; [exact B2|].
      split; [reflexivity | now left].
    + exists (charted cevs), (Send (ToolResponses new)
                             :: map OnToolChunk (flat_map chunk_text resumed)).
      destruct (batch_charts Hb) as [B1 B2].
      rewrite <- (batch_events Hb).
      split; [reflexivity|]. split; [exact B1|]. split; [exact B2|].
      split; [reflexivity|]. right. eauto.
Qed.

(** X6.  An argument that is present but is the empty string is defaulted
    like a missing one.  A request of a known name whose [symbol] is the
    empty string gets one response, under its own [id] and [name], written
    for "UNKNOWN"; for a chart request the chart itself is that of "UNKNOWN",
    and if its [period] is empty too the chart is the one of "1M", with 31
    points. *)
Theorem empty_arguments_defaulted call args rs w :
  known call = true ->
  call_args call = Some args ->
  Js.get "symbol" args = Some (Js.Str "") ->
  exists new w',
    handle_call inp call rs w = (Returned (rs ++ [new]), w')
    /\ id new = call_id call
    /\ name new = call_name call
    /\ (call_name call = "getStockPrice"%string ->
        events w' = events w
        /\ exists p,
             response_result new
             = ("The current price of UNKNOWN is $" ++ p ++ ".")%string)
    /\ (call_name call = "getStockChart"%string ->
        exists chart pn,
          events w' = events w ++ [OnChart chart]
          /\ symbol chart = "UNKNOWN"%string
          /\ response_result new
             = ("Chart generated for UNKNOWN. Current price is "
                ++ Number_toString (price pn) ++ ".")%string
          /\ (Js.get "period" args = Some (Js.Str "") ->
              period chart = Js.Str "1M" /\ List.length (data chart) = 31)).
Proof.
  intros Hk Ha Hs.
  destruct (handle_call_spec inp call rs w) as (out & evs & w' & E & _ & _ & V & H).
  assert (Sy : symbol_arg call = Js.Str "UNKNOWN").
  { unfold symbol_arg, args_of. now rewrite Ha, Hs. }
  assert (F : failure_of call = None).
  { unfold failure_of. rewrite Ha, Sy. now destruct (is_chart_call call). }
  rewrite F in H. destruct H as (new & -> & H).
  destruct H as [chart pn _ Hn (C1 & C2 & C3 & C4) | p _ Hn | _ Hu].
  - exists (chart_summary call pn), w'.
    split; [exact E|]. split; [reflexivity|]. split; [reflexivity|].
    split.
    + intros Hn'. rewrite Hn in Hn'. discriminate Hn'.
    + intros _. exists chart, pn.
      split; [exact V|].
      split; [rewrite C1, Sy; reflexivity|].
      split; [unfold chart_summary; cbn [response_result]; rewrite Sy; reflexivity|].
      intros Hp.
      assert (Pe : period_arg call = Js.Str "1M").
      { unfold period_arg, args_of. now rewrite Ha, Hp. }
      rewrite Pe in C2, C3. split; [exact C2 | exact C3].
  - exists (price_summary call p), w'.
    split; [exact E|]. split; [reflexivity|]. split; [reflexivity|].
    split.
    + intros _. rewrite app_nil_r in V. split; [exact V|].
      exists p. unfold price_summary. cbn [response_result]. rewrite Sy. reflexivity.
    + intros Hn'. rewrite Hn in Hn'. discriminate Hn'.
  - rewrite Hk in Hu. discriminate Hu.
Qed.

(** X7.  Generating a chart has no effect but on the tapes: it reads the
    clock once and draws [2 * points + 3] random numbers (one for the start
    price, two per point), and makes no callback, logs nothing and leaves the
    session alone. *)
Theorem chart_generation_reads_tapes_only (sym per : string) w :
  exists chart w',
    generateMockChartData inp (Js.Str sym) (Js.Str per) w = (Returned chart, w')
    /\ randomPos w' = randomPos w + 2 * points_of (Js.Str per) + 3
    /\ clockPos w' = S (clockPos w)
    /\ this w' = this w
    /\ events w' = events w
    /\ console w' = console w.
Proof.
  destruct (generateMockChartData_spec inp sym (Js.Str per) w)
    as (chart & w' & p0 & pn & E & (T1 & T2 & T3) & _).
  destruct (generateMockChartData_tapes inp (Js.Str sym) (Js.Str per) w)
    as (out & w2 & E2 & R & C).
  rewrite E in E2. injection E2 as <- <-.
  exists chart, w'. repeat split; assumption.
Qed.

(** X8.  The labels of a chart count back from the clock reading: the k-th
    of its [n + 1] points is labelled with the reading moved back by [n - k]
    hours for "1D", months for "1Y" and days for any other period, so the
    last point is labelled with the reading itself moved by zero.  The labels
    depend on nothing else. *)
Theorem labels_count_back_from_now (sym per : string) w :
  exists chart w',
    generateMockChartData inp (Js.Str sym) (Js.Str per) w = (Returned chart, w')
    /\ forall k, k <= points_of (Js.Str per) ->
         option_map date (nth_error (data chart) k)
         = Some (point_date (Js.Str per) (clock inp (clockPos w))
                   (points_of (Js.Str per) - k)).
Proof.
  destruct (generateMockChartData_spec inp sym (Js.Str per) w)
    as (chart & w' & p0 & pn & E & _ & _ & _ & _ & _ & _ & _ & D).
  exists chart, w'. split; [exact E|].
  intros k Hk.
  rewrite <- nth_error_map, D, nth_error_map, (nth_error_countdown Hk).
  reflexivity.
Qed.

End ServiceProperties.

(** * Lemmas on the components *)

Lemma trimStart_blank s : blank s = true -> Js.trimStart s = ""%string.
Proof.
  unfold blank. induction s as [|c s IH]; [reflexivity|].
  cbn. intros H. apply andb_true_iff in H as [Hc Hs].
  rewrite Hc. now apply IH.
Qed.

Lemma trimStart_head s :
  Js.trimStart s = ""%string
  \/ exists c r, Js.trimStart s = String c r /\ Js.is_space c = false.
Proof.
  induction s as [|c s IH]; [now left|].
  cbn. destruct (Js.is_space c) eqn:Hc; [exact IH|].
  right. exists c, s. split; [reflexivity | exact Hc].
Qed.

Lemma trimStart_empty s : Js.trimStart s = ""%string -> blank s = true.
Proof.
  unfold blank. induction s as [|c s IH]; [reflexivity|].
  cbn. destruct (Js.is_space c); [exact IH | discriminate].
Qed.

(** [trim] gives the empty string exactly on the strings of white space. *)
Lemma trim_blank s : Js.trim s = ""%string <-> blank s = true.
Proof.
  unfold Js.trim. split.
  - intros H. destruct (trimStart_head s) as [E | (c & r & E & Hc)].
    + now apply trimStart_empty.
    + rewrite E in H. cbn in H. rewrite Hc in H. discriminate H.
  - intros H. now rewrite (trimStart_blank s H).
Qed.

Lemma skipn_length_app {A : Type} (a b : list A) : skipn (List.length a) (a ++ b) = b.
Proof. induction a as [|x a IH]; [reflexivity | exact IH]. Qed.

Lemma last_of_app {A : Type} (a l : list A) :
  last_of (a ++ l) = match last_of l with
                     | Some x => Some x
                     | None => last_of a
                     end.
Proof.
  unfold last_of. destruct l as [|y l].
  - now rewrite app_nil_r.
  - rewrite length_app. cbn [List.length].
    replace (List.length a + S (List.length l) - 1)
      with (List.length a + List.length l) by lia.
    rewrite nth_error_app2 by lia.
    replace (List.length a + List.length l - List.length a)
      with (S (List.length l) - 1) by lia.
    destruct (nth_error (y :: l) (S (List.length l) - 1)) eqn:N; [reflexivity|].
    apply nth_error_None in N. cbn in N. lia.
Qed.


Section UiFacts.

Context {host : JsHost}.
Variable inp : Inputs.

Lemma find_bot botId old user b :
  (forall m, In m old -> Ui.id m <> botId) ->
  Ui.id user <> botId ->
  Ui.id b = botId ->
  find (fun m => (Ui.id m =? botId)%string) (old ++ [user; b]) = Some b.
Proof.
  intros Ho Hu Hb. induction old as [|m old IH]; cbn.
  - apply String.eqb_neq in Hu. rewrite Hu.
    apply String.eqb_eq in Hb. now rewrite Hb.
  - assert (Hm : (Ui.id m =? botId)%string = false).
    { apply String.eqb_neq, Ho. now left. }
    rewrite Hm. apply IH. intros m' I. apply Ho. now right.
Qed.

(** An update of the messages whose [id] is the placeholder's touches the
    placeholder only. *)
Lemma update_bot (F : Ui.Message -> Ui.Message) botId old user b :
  (forall m, In m old -> Ui.id m <> botId) ->
  Ui.id user <> botId ->
  Ui.id b = botId ->
  map (fun msg => if (Ui.id msg =? botId)%string then F msg else msg) (old ++ [user; b])
  = old ++ [user; F b].
Proof.
  intros Ho Hu Hb. rewrite map_app. f_equal.
  - induction old as [|m old IH]; [reflexivity|]. cbn.
    assert (Hm : (Ui.id m =? botId)%string = false).
    { apply String.eqb_neq, Ho. now left. }
    rewrite Hm, IH; [reflexivity|]. intros m' I. apply Ho. now right.
  - cbn. apply String.eqb_neq in Hu. rewrite Hu.
    apply String.eqb_eq in Hb. now rewrite Hb.
Qed.

Lemma bot_after_id evs b : Ui.id (bot_after evs b) = Ui.id b.
Proof. reflexivity. Qed.

Lemma bot_after_cons e evs b :
  bot_after (e :: evs) b = bot_after evs (bot_after [e] b).
Proof.
  unfold bot_after. cbn [Ui.id Ui.role Ui.text Ui.timestamp Ui.isLoading
                          Ui.chartData Ui.sources].
  change (e :: evs) with ([e] ++ evs).
  rewrite delivered_app, charted_app, join_app, append_assoc, last_of_app.
  f_equal.
  - destruct (delivered [e]), (delivered evs); reflexivity.
  - destruct (last_of (charted evs)); reflexivity.
Qed.

Lemma callback_bot botId e old user b v l sb :
  (forall m, In m old -> Ui.id m <> botId) ->
  Ui.id user <> botId ->
  Ui.id b = botId ->
  Ui.callback botId e
    {| Ui.messages := old ++ [user; b]; Ui.inputValue := v;
       Ui.loading := l; Ui.sidebarOpen := sb |}
  = {| Ui.messages := old ++ [user; bot_after [e] b]; Ui.inputValue := v;
       Ui.loading := l; Ui.sidebarOpen := sb |}.
Proof.
  intros Ho Hu Hb.
  assert (Chunk : forall t,
            Ui.append_chunk botId t (old ++ [user; b])
            = old ++ [user; bot_after [OnChunk t] b]).
  { intros t. unfold Ui.append_chunk.
    rewrite (@find_bot botId old user b Ho Hu Hb), (@update_bot _ botId old user b Ho Hu Hb).
    unfold bot_after. cbn. now rewrite append_empty_r. }
  destruct e as [t|t|c|m]; unfold Ui.callback, Ui.setMessages; cbn [Ui.messages
    Ui.inputValue Ui.loading Ui.sidebarOpen].
  - now rewrite Chunk.
  - now rewrite Chunk.
  - unfold Ui.attach_chart. rewrite (@update_bot _ botId old user b Ho Hu Hb).
    unfold bot_after. cbn. now rewrite append_empty_r.
  - unfold bot_after. cbn. rewrite append_empty_r. now destruct b.
Qed.

Lemma callbacks_bot botId evs :
  forall old user b v l sb,
  (forall m, In m old -> Ui.id m <> botId) ->
  Ui.id user <> botId ->
  Ui.id b = botId ->
  fold_left (fun ui e => Ui.callback botId e ui) evs
    {| Ui.messages := old ++ [user; b]; Ui.inputValue := v;
       Ui.loading := l; Ui.sidebarOpen := sb |}
  = {| Ui.messages := old ++ [user; bot_after evs b]; Ui.inputValue := v;
       Ui.loading := l; Ui.sidebarOpen := sb |}.
Proof.
  induction evs as [|e evs IH]; intros old user b v l sb Ho Hu Hb.
  - cbn [fold_left]. unfold bot_after. cbn. rewrite append_empty_r. now destruct b.
  - cbn [fold_left]. rewrite (@callback_bot botId e old user b v l sb Ho Hu Hb).
    rewrite (IH old user (bot_after [e] b) v l sb Ho Hu Hb).
    now rewrite <- bot_after_cons.
Qed.

(** What one call of [handleSend] does when the input is not blank, no turn
    is in flight and the [id] of the placeholder is new. *)
Lemma handleSend_spec ui w out wS :
  blank (Ui.inputValue ui) = false ->
  Ui.loading ui = false ->
  turn_user_id inp w <> turn_bot_id inp w ->
  (forall m, In m (Ui.messages ui) -> Ui.id m <> turn_bot_id inp w) ->
  sendMessage inp (Ui.inputValue ui) (after_clock 4 w) = (out, wS) ->
  exists evs,
    events wS = events w ++ evs
    /\ Ui.handleSend inp ui w
       = (Returned
            {| Ui.messages :=
                 Ui.messages ui ++
                 [ {| Ui.id := turn_user_id inp w;
                      Ui.role := Ui.role_user;
                      Ui.text := Ui.inputValue ui;
                      Ui.timestamp := clock inp (1 + clockPos w);
                      Ui.isLoading := None;
                      Ui.chartData := None;
                      Ui.sources := None |};
                   {| Ui.id := turn_bot_id inp w;
                      Ui.role := Ui.role_model;
                      Ui.text := match out with
                                 | Returned _ => join (delivered evs)
                                 | Thrown _ => Ui.errorText
                                 end;
                      Ui.timestamp := clock inp (3 + clockPos w);
                      Ui.isLoading := Some false;
                      Ui.chartData := last_of (charted evs);
                      Ui.sources := match out with
                                    | Returned r => Some (result_sources r)
                                    | Thrown _ => None
                                    end |} ];
               Ui.inputValue := "";
               Ui.loading := false;
               Ui.sidebarOpen := Ui.sidebarOpen ui |},
          match out with
          | Returned _ => wS
          | Thrown e => log (Js.message e) wS
          end).
Proof.
  intros Hb Hl Hu Ho Hrun.
  destruct (sendMessage_spec inp (Ui.inputValue ui) (after_clock 4 w))
    as (out' & w2 & evs0 & E & V & _).
  rewrite Hrun in E. injection E as <- <-.
  cbn [after_clock events] in V.
  exists (Send (UserMessage (Ui.inputValue ui)) :: evs0). split; [exact V|].
  unfold Ui.handleSend.
  assert (G : Js.truthy (Some (Js.trim (Ui.inputValue ui))) = true).
  { unfold Js.truthy. apply negb_true_iff, String.eqb_neq.
    intros T. apply trim_blank in T. congruence. }
  rewrite G, Hl. cbn [negb orb].
  unfold Ui.Date_now. unfold bind, Date_new, ret.
  cbv beta iota zeta. cbn [this events console randomPos clockPos].
  change {| this := this w; events := events w; console := console w;
            randomPos := randomPos w;
            clockPos := S (S (S (S (clockPos w)))) |} with (after_clock 4 w).
  rewrite Hrun. cbn [after_clock events].
  rewrite V, skipn_length_app.
  unfold Ui.setIsLoading, Ui.setMessages, Ui.setInputValue.
  cbn [Ui.messages Ui.inputValue Ui.loading Ui.sidebarOpen].
  fold (turn_user_id inp w).
  change (Number_toString (Js.ofZ (clock inp (S (S (clockPos w)))) + Js.ofZ 1)%js)
    with (turn_bot_id inp w).
  set (user := {| Ui.id := turn_user_id inp w; Ui.role := Ui.role_user;
                   Ui.text := Ui.inputValue ui;
                   Ui.timestamp := clock inp (S (clockPos w));
                   Ui.isLoading := None; Ui.chartData := None;
                   Ui.sources := None |}).
  set (bot := {| Ui.id := turn_bot_id inp w; Ui.role := Ui.role_model;
                  Ui.text := ""; Ui.timestamp := clock inp (S (S (S (clockPos w))));
                  Ui.isLoading := Some true; Ui.chartData := None;
                  Ui.sources := None |}).
  rewrite (@callbacks_bot (turn_bot_id inp w)
             (Send (UserMessage (Ui.inputValue ui)) :: evs0)
             (Ui.messages ui) user bot ""%string true (Ui.sidebarOpen ui)
             Ho Hu eq_refl).
  cbn [Ui.messages Ui.inputValue Ui.loading Ui.sidebarOpen].
  destruct out as [r|e].
  - unfold Ui.finish.
    rewrite (@update_bot _ (turn_bot_id inp w) (Ui.messages ui) user
               (bot_after (Send (UserMessage (Ui.inputValue ui)) :: evs0) bot)
               Ho Hu eq_refl).
    unfold bot_after. cbn.
    destruct (nth_error (charted evs0) (List.length (charted evs0) - 1)); reflexivity.
  - unfold Ui.fail.
    rewrite (@update_bot _ (turn_bot_id inp w) (Ui.messages ui) user
               (bot_after (Send (UserMessage (Ui.inputValue ui)) :: evs0) bot)
               Ho Hu eq_refl).
    unfold bot_after. cbn.
    destruct (nth_error (charted evs0) (List.length (charted evs0) - 1)); reflexivity.
Qed.

End UiFacts.

Section TurnHelpers.

Context {host : JsHost}.
Variable inp : Inputs.

Lemma sendMessage_text message w r w' evs :
  sendMessage inp message w = (Returned r, w') ->
  events w' = events w ++ evs ->
  result_text r = join (delivered evs).
Proof.
  intros Hrun V.
  destruct (sendMessage_spec inp message w) as (out & w2 & evs0 & E & V0 & Hr & Hs).
  rewrite Hrun in E. injection E as <- <-.
  rewrite V in V0. apply app_inv_head in V0. subst evs.
  destruct (model inp (history w ++ [UserMessage message])) as [e|chunks failure] eqn:Em.
  - destruct (Hr e eq_refl) as [Hout _]. discriminate Hout.
  - destruct (Hs chunks failure eq_refl)
      as (done & rest & _ & [(_ & F & _) | (e & c & rest' & ev1 & ev2 & Ho & _)]);
      [|discriminate Ho].
    destruct (F r eq_refl) as (_ & _ & Ht). exact Ht.
Qed.


End TurnHelpers.

(** * Further properties of the components *)

Section ComponentProperties.

Context {host : JsHost}.
Variable inp : Inputs.


(** X10.  Every chart made by [generateMockChartData] renders: the figure
    is the price of its last point, the heading and the gradient are keyed by
    the upper-cased symbol, and the colour and the icon follow the prices:
    green and rising when the last price is above the first, red and falling
    when it is below, grey and flat otherwise. *)
Theorem generated_chart_renders (sym per : string) w :
  exists chart w' p0 pn v,
    generateMockChartData inp (Js.Str sym) (Js.Str per) w = (Returned chart, w')
    /\ nth_error (data chart) 0 = Some p0
    /\ last_of (data chart) = Some pn
    /\ StockChart chart = Returned v
    /\ last_price v = toFixed2 (price pn)
    /\ heading v = Js.toUpperCase sym
    /\ gradient_id v = ("color" ++ Js.toUpperCase sym)%string
    /\ (stroke v, trend_icon v)
       = (if Js.gt (price pn) (price p0) then ("#10b981"%string, TrendingUp)
          else if Js.lt (price pn) (price p0) then ("#ef4444"%string, TrendingDown)
          else ("#64748b"%string, Minus)).
Proof.
  destruct (generateMockChartData_spec inp sym (Js.Str per) w)
    as (chart & w' & p0 & pn & E & _ & Hs & _ & _ & H0 & Hn & Ht & _).
  exists chart, w', p0, pn.
  unfold StockChart, last_of. rewrite Hn, Ht, Hs.
  eexists. split; [exact E|]. split; [exact H0|]. split; [reflexivity|].
  split; [reflexivity|]. cbn [last_price heading gradient_id stroke trend_icon].
  split; [reflexivity|]. split; [reflexivity|]. split; [reflexivity|].
  destruct (Js.gt (price pn) (price p0)); [reflexivity|].
  destruct (Js.lt (price pn) (price p0)); reflexivity.
Qed.

(** X11.  [handleSend] does nothing at all when the input holds white space
    only (or is empty) or when a turn is in flight: the state is unchanged,
    no message is submitted to the model, the clock is not read. *)
Theorem blank_or_busy_input_is_ignored ui w :
  blank (Ui.inputValue ui) = true \/ Ui.loading ui = true ->
  Ui.handleSend inp ui w = (Returned ui, w).
Proof.
  intros H. unfold Ui.handleSend.
  assert (G : negb (Js.truthy (Some (Js.trim (Ui.inputValue ui)))) || Ui.loading ui = true).
  { destruct H as [H | H].
    - apply trim_blank in H. rewrite H. reflexivity.
    - rewrite H. apply orb_true_r. }
  now rewrite G.
Qed.

(** X12.  Otherwise, and if the [id] made for the placeholder is new, one
    call of [handleSend] never throws and ends with exactly two messages
    appended to the unchanged earlier ones: the user's, holding the input as
    typed (not trimmed), and the reply, no longer loading and carrying the
    last chart the turn produced, if any; the input is cleared and the
    loading flag is off, whether the turn returned or failed. *)
Theorem handleSend_appends_two_messages ui w :
  blank (Ui.inputValue ui) = false ->
  Ui.loading ui = false ->
  turn_user_id inp w <> turn_bot_id inp w ->
  (forall m, In m (Ui.messages ui) -> Ui.id m <> turn_bot_id inp w) ->
  exists ui' w' user bot evs,
    Ui.handleSend inp ui w = (Returned ui', w')
    /\ Ui.messages ui' = Ui.messages ui ++ [user; bot]
    /\ Ui.inputValue ui' = ""%string
    /\ Ui.loading ui' = false
    /\ Ui.sidebarOpen ui' = Ui.sidebarOpen ui
    /\ Ui.role user = Ui.role_user
    /\ Ui.text user = Ui.inputValue ui
    /\ Ui.role bot = Ui.role_model
    /\ Ui.id bot = turn_bot_id inp w
    /\ Ui.isLoading bot = Some false
    /\ events w' = events w ++ evs
    /\ Ui.chartData bot = last_of (charted evs).
Proof.
  intros Hb Hl Hu Ho.
  destruct (sendMessage inp (Ui.inputValue ui) (after_clock 4 w)) as [out wS] eqn:Hrun.
  destruct (@handleSend_spec host inp ui w _ _ Hb Hl Hu Ho Hrun) as (evs & V & E).
  rewrite E. eexists _, _, _, _, evs.
  split; [reflexivity|]. cbn.
  repeat (split; [reflexivity|]).
  split; [|reflexivity].
  destruct out; [exact V | cbn; exact V].
Qed.

(** X13.  When the turn returns, the reply shows exactly the text of the
    result, which is what the [onChunk] calls appended piece by piece, and
    the sources of the result; nothing is logged. *)
Theorem reply_shows_the_result ui w r wS :
  blank (Ui.inputValue ui) = false ->
  Ui.loading ui = false ->
  turn_user_id inp w <> turn_bot_id inp w ->
  (forall m, In m (Ui.messages ui) -> Ui.id m <> turn_bot_id inp w) ->
  sendMessage inp (Ui.inputValue ui) (after_clock 4 w) = (Returned r, wS) ->
  exists ui' user bot,
    Ui.handleSend inp ui w = (Returned ui', wS)
    /\ Ui.messages ui' = Ui.messages ui ++ [user; bot]
    /\ Ui.text bot = result_text r
    /\ Ui.sources bot = Some (result_sources r)
    /\ console wS = console w.
Proof.
  intros Hb Hl Hu Ho Hrun.
  destruct (@handleSend_spec host inp ui w _ _ Hb Hl Hu Ho Hrun) as (evs & V & E).
  rewrite E. eexists _, _, _.
  split; [reflexivity|]. cbn.
  split; [reflexivity|].
  split; [symmetry; exact (@sendMessage_text host inp _ _ _ _ _ Hrun V)|].
  split; [reflexivity|].
  destruct (sendMessage_frame inp (Ui.inputValue ui) (after_clock 4 w))
    as (out & w2 & evs' & chat' & E2 & _ & _ & _ & _ & _ & _ & _ & F).
  rewrite Hrun in E2. injection E2 as <- <-.
  destruct F as [(r' & _ & C & _) | (e & He & _)]; [exact C | discriminate He].
Qed.

(** X14.  When the turn fails, whatever the error, the reply shows the
    fixed error text in place of whatever text had been streamed, has no
    sources, keeps the last chart that was produced, and the error is logged
    twice: by the service, after its label, and then by the application. *)
Theorem failed_reply_shows_error_text ui w e wS :
  blank (Ui.inputValue ui) = false ->
  Ui.loading ui = false ->
  turn_user_id inp w <> turn_bot_id inp w ->
  (forall m, In m (Ui.messages ui) -> Ui.id m <> turn_bot_id inp w) ->
  sendMessage inp (Ui.inputValue ui) (after_clock 4 w) = (Thrown e, wS) ->
  exists ui' w' user bot evs,
    Ui.handleSend inp ui w = (Returned ui', w')
    /\ Ui.messages ui' = Ui.messages ui ++ [user; bot]
    /\ Ui.text bot = Ui.errorText
    /\ Ui.sources bot = None
    /\ Ui.isLoading bot = Some false
    /\ events w' = events w ++ evs
    /\ Ui.chartData bot = last_of (charted evs)
    /\ console w' = console w
                    ++ [("Gemini interaction error: " ++ Js.message e)%string;
                        Js.message e].
Proof.
  intros Hb Hl Hu Ho Hrun.
  destruct (@handleSend_spec host inp ui w _ _ Hb Hl Hu Ho Hrun) as (evs & V & E).
  destruct (sendMessage_frame inp (Ui.inputValue ui) (after_clock 4 w))
    as (out & w2 & evs' & chat' & E2 & _ & _ & _ & _ & _ & _ & _ & F).
  rewrite Hrun in E2. injection E2 as <- <-.
  destruct F as [(r' & Hr & _) | (e' & [= <-] & C)]; [discriminate Hr|].
  rewrite E. eexists _, _, _, _, evs.
  split; [reflexivity|]. cbn.
  repeat (split; [reflexivity|]).
  split; [exact V|]. split; [reflexivity|].
  rewrite C. cbn. now rewrite <- app_assoc.
Qed.


End ComponentProperties.

(** * Runs of the further properties on the sample host *)

(** A turn with citations in both streams. *)
Lemma sources_come_from_first_stream_witness :
  exists r w',
    sendMessage (host := Sample.host) (Sample.inputs UiRuns.cited_script)
      "cite" Sample.ready = (Returned r, w')
    /\ model (Sample.inputs UiRuns.cited_script)
         (history Sample.ready ++ [UserMessage "cite"])
       = Stream [UiRuns.cited_chunk] None
    /\ result_sources r = flat_map chunk_sources [UiRuns.cited_chunk].
Proof.
  eexists _, _.
  split; [vm_compute; reflexivity|].
  split; [reflexivity|].
  eapply (@sources_come_from_first_stream Sample.host
            (Sample.inputs UiRuns.cited_script) "cite" Sample.ready _ _
            [UiRuns.cited_chunk] None).
  - vm_compute. reflexivity.
  - reflexivity.
Defined.

(** Two fragments of text, then the stream breaks. *)
Lemma text_only_turn_witness :
  model (Sample.inputs UiRuns.quiet_script) (history Sample.ready ++ [UserMessage "hi"])
  = Stream [Sample.say "Markets are "; Sample.say "calm."] (Some "connection reset"%string)
  /\ forallb (fun chunk => forallb skipped (calls_of chunk))
       [Sample.say "Markets are "; Sample.say "calm."] = true
  /\ fst (sendMessage (host := Sample.host) (Sample.inputs UiRuns.quiet_script)
            "hi" Sample.ready)
     = Thrown (Js.ModelError "connection reset")
  /\ events (snd (sendMessage (host := Sample.host) (Sample.inputs UiRuns.quiet_script)
                    "hi" Sample.ready))
     = events Sample.ready
       ++ Send (UserMessage "hi")
          :: map OnChunk (flat_map chunk_text
                            [Sample.say "Markets are "; Sample.say "calm."]).
Proof.
  split; [reflexivity|]. split; [reflexivity|].
  exact (@text_only_turn Sample.host (Sample.inputs UiRuns.quiet_script) "hi"
           Sample.ready [Sample.say "Markets are "; Sample.say "calm."]
           (Some "connection reset"%string) eq_refl eq_refl).
Defined.

(** A fragment asking for a chart and for a price, on an open session. *)
Lemma fragment_events_in_order_witness :
  exists chat,
    chatSession (this Runs.started) = Some chat
    /\ exists charts tail,
         events (snd (on_chunk (host := Sample.host) (Sample.inputs Runs.chart_script)
                        (Sample.ask [Runs.chart_call; Runs.price_call])
                        (""%string, []) Runs.started))
         = events Runs.started
           ++ map OnChunk (chunk_text (Sample.ask [Runs.chart_call; Runs.price_call]))
           ++ map OnChart charts ++ tail
         /\ map symbol charts = ["BTC"%string]
         /\ map period charts = [Js.Str "1M"]
         /\ executed [Runs.chart_call; Runs.price_call]
            = [Runs.chart_call; Runs.price_call]
         /\ (tail = []
             \/ exists rs resumed,
                  tail = Send (ToolResponses rs) :: map OnToolChunk resumed).
Proof.
  eexists. split; [reflexivity|].
  exact (@fragment_events_in_order Sample.host (Sample.inputs Runs.chart_script)
           (Sample.ask [Runs.chart_call; Runs.price_call]) (""%string, [])
           Runs.started _ eq_refl).
Defined.

(** A chart request whose two arguments are empty strings. *)
Lemma empty_arguments_defaulted_witness :
  known (UiRuns.empty_call "getStockChart") = true
  /\ call_args (UiRuns.empty_call "getStockChart")
     = Some [("symbol"%string, Js.Str ""); ("period"%string, Js.Str "")]
  /\ exists new w',
       handle_call (host := Sample.host) (Sample.inputs Runs.chart_script)
         (UiRuns.empty_call "getStockChart") [] Runs.started
       = (Returned ([] ++ [new]), w')
       /\ id new = "c5"%string
       /\ name new = "getStockChart"%string
       /\ (call_name (UiRuns.empty_call "getStockChart") = "getStockPrice"%string ->
           events w' = events Runs.started
           /\ exists p,
                response_result new
                = ("The current price of UNKNOWN is $" ++ p ++ ".")%string)
       /\ (call_name (UiRuns.empty_call "getStockChart") = "getStockChart"%string ->
           exists chart pn,
             events w' = events Runs.started ++ [OnChart chart]
             /\ symbol chart = "UNKNOWN"%string
             /\ response_result new
                = ("Chart generated for UNKNOWN. Current price is "
                   ++ Number_toString (JsHost := Sample.host) (price pn) ++ ".")%string
             /\ (Js.get "period" [("symbol"%string, Js.Str ""); ("period"%string, Js.Str "")]
                 = Some (Js.Str "") ->
                 period chart = Js.Str "1M" /\ List.length (data chart) = 31)).
Proof.
  split; [reflexivity|]. split; [reflexivity|].
  exact (@empty_arguments_defaulted Sample.host (Sample.inputs Runs.chart_script)
           (UiRuns.empty_call "getStockChart") _ [] Runs.started
           eq_refl eq_refl eq_refl).
Defined.

(** Only white space has been typed. *)
Lemma blank_or_busy_input_is_ignored_witness :
  blank (Ui.inputValue UiRuns.typed_blank) = true
  /\ Ui.handleSend (host := Sample.host) (Sample.inputs Runs.price_script)
       UiRuns.typed_blank Sample.ready
     = (Returned UiRuns.typed_blank, Sample.ready).
Proof.
  split; [reflexivity|].
  exact (@blank_or_busy_input_is_ignored Sample.host (Sample.inputs Runs.price_script)
           UiRuns.typed_blank Sample.ready (or_introl eq_refl)).
Defined.

(** The [id]s of the first turn of the sample application are new. *)
Lemma sample_ids_differ script :
  turn_user_id (host := Sample.host) (Sample.inputs script) Sample.ready
  <> turn_bot_id (host := Sample.host) (Sample.inputs script) Sample.ready.
Proof. intros H. vm_compute in H. discriminate H. Defined.

Lemma sample_id_fresh script m :
  In m (Ui.messages UiRuns.typed) ->
  Ui.id m <> turn_bot_id (host := Sample.host) (Sample.inputs script) Sample.ready.
Proof. intros [<- | []] H. vm_compute in H. discriminate H. Defined.

(** A question typed into the initial state, answered after a price request. *)
Lemma handleSend_appends_two_messages_witness :
  blank (Ui.inputValue UiRuns.typed) = false
  /\ Ui.loading UiRuns.typed = false
  /\ turn_user_id (host := Sample.host) (Sample.inputs Runs.price_script) Sample.ready
     <> turn_bot_id (host := Sample.host) (Sample.inputs Runs.price_script) Sample.ready
  /\ (forall m, In m (Ui.messages UiRuns.typed) ->
       Ui.id m <> turn_bot_id (host := Sample.host) (Sample.inputs Runs.price_script)
                    Sample.ready)
  /\ exists ui' w' user bot evs,
       Ui.handleSend (host := Sample.host) (Sample.inputs Runs.price_script)
         UiRuns.typed Sample.ready = (Returned ui', w')
       /\ Ui.messages ui' = Ui.messages UiRuns.typed ++ [user; bot]
       /\ Ui.inputValue ui' = ""%string
       /\ Ui.loading ui' = false
       /\ Ui.sidebarOpen ui' = Ui.sidebarOpen UiRuns.typed
       /\ Ui.role user = Ui.role_user
       /\ Ui.text user = Ui.inputValue UiRuns.typed
       /\ Ui.role bot = Ui.role_model
       /\ Ui.id bot = turn_bot_id (host := Sample.host)
                        (Sample.inputs Runs.price_script) Sample.ready
       /\ Ui.isLoading bot = Some false
       /\ events w' = events Sample.ready ++ evs
       /\ Ui.chartData bot = last_of (charted evs).
Proof.
  split; [reflexivity|]. split; [reflexivity|].
  split; [exact (@sample_ids_differ Runs.price_script)|].
  split; [exact (@sample_id_fresh Runs.price_script)|].
  exact (@handleSend_appends_two_messages Sample.host (Sample.inputs Runs.price_script)
           UiRuns.typed Sample.ready eq_refl eq_refl
           (@sample_ids_differ Runs.price_script) (@sample_id_fresh Runs.price_script)).
Defined.

(** The same question, when the turn returns. *)
Lemma reply_shows_the_result_witness :
  exists r wS,
    sendMessage (host := Sample.host) (Sample.inputs Runs.price_script)
      (Ui.inputValue UiRuns.typed) (after_clock 4 Sample.ready) = (Returned r, wS)
    /\ result_text r = "Let me check. ETH trades at $120."%string
    /\ exists ui' user bot,
         Ui.handleSend (host := Sample.host) (Sample.inputs Runs.price_script)
           UiRuns.typed Sample.ready = (Returned ui', wS)
         /\ Ui.messages ui' = Ui.messages UiRuns.typed ++ [user; bot]
         /\ Ui.text bot = result_text r
         /\ Ui.sources bot = Some (result_sources r)
         /\ console wS = console Sample.ready.
Proof.
  eexists _, _.
  split; [vm_compute; reflexivity|].
  split; [reflexivity|].
  eapply (@reply_shows_the_result Sample.host (Sample.inputs Runs.price_script)
            UiRuns.typed Sample.ready _ _ eq_refl eq_refl
            (@sample_ids_differ Runs.price_script) (@sample_id_fresh Runs.price_script)).
  vm_compute. reflexivity.
Defined.

(** The same question, when the batch of the answer holds a request
    without [args]. *)
Lemma failed_reply_shows_error_text_witness :
  exists e wS,
    sendMessage (host := Sample.host) (Sample.inputs Runs.no_args_script)
      (Ui.inputValue UiRuns.typed) (after_clock 4 Sample.ready) = (Thrown e, wS)
    /\ delivered (events wS) = ["Checking. "]%string
    /\ exists ui' w' user bot evs,
         Ui.handleSend (host := Sample.host) (Sample.inputs Runs.no_args_script)
           UiRuns.typed Sample.ready = (Returned ui', w')
         /\ Ui.messages ui' = Ui.messages UiRuns.typed ++ [user; bot]
         /\ Ui.text bot = Ui.errorText
         /\ Ui.sources bot = None
         /\ Ui.isLoading bot = Some false
         /\ events w' = events Sample.ready ++ evs
         /\ Ui.chartData bot = last_of (charted evs)
         /\ console w'
            = console Sample.ready
              ++ [("Gemini interaction error: " ++ Js.message e)%string; Js.message e].
Proof.
  eexists _, _.
  split; [vm_compute; reflexivity|].
  split; [reflexivity|].
  eapply (@failed_reply_shows_error_text Sample.host (Sample.inputs Runs.no_args_script)
            UiRuns.typed Sample.ready _ _ eq_refl eq_refl
            (@sample_ids_differ Runs.no_args_script) (@sample_id_fresh Runs.no_args_script)).
  vm_compute. reflexivity.
Defined.

